(** * commodities-research: a shallow embedding of the notebooks and scripts

    The repository is a set of pandas notebooks over one-minute futures bars
    and two zsh one-liners.  Dataframes are embedded as lists of rows in row
    order, timestamps as a count of seconds, float64 cells as rationals with
    an explicit missing value, Python exceptions as an error result. *)

From Stdlib Require Import ZArith QArith Qminmax List Finite Bool Lia Permutation.
From Stdlib Require Import Ascii String.
Import ListNotations.

Set Implicit Arguments.
Local Open Scope Z_scope.

(** ** Python results: a value or an uncaught exception *)

Module Py.

Inductive exn : Type :=
| FileNotFoundError
| ValueError
| IndexError
| KeyError
| UnboundLocalError.

Inductive Except (A : Type) : Type :=
| ok (a : A)
| error (e : exn).

Arguments ok {A} a.
Arguments error {A} e.

Definition bind {A B : Type} (m : Except A) (k : A -> Except B) : Except B :=
  match m with
  | ok a => k a
  | error e => error e
  end.

Fixpoint mapM {A B : Type} (f : A -> Except B) (l : list A) : Except (list B) :=
  match l with
  | [] => ok []
  | a :: l' =>
      match f a with
      | ok b =>
          match mapM f l' with
          | ok bs => ok (b :: bs)
          | error e => error e
          end
      | error e => error e
      end
  end.

Definition is_error {A : Type} (m : Except A) : bool :=
  match m with
  | ok _ => false
  | error _ => true
  end.

End Py.

Import Py.

Notation "x <- m ;; k" := (Py.bind m (fun x => k))
  (at level 61, m at next level, right associativity).

(** ** Timestamps, dates and the calendar *)

Module Time.

(** A naive [pd.Timestamp] / [datetime]: seconds since 1970-01-01T00:00:00. *)
Definition Timestamp := Z.

(** A [datetime.date]: days since 1970-01-01. *)
Definition date := Z.

(** A [datetime.time]: seconds since midnight. *)
Definition time := Z.

Definition seconds_per_day : Z := 86400.

(** [t.date()] *)
Definition date_of (t : Timestamp) : date := t / seconds_per_day.

(** [t.time()] *)
Definition time_of (t : Timestamp) : time := t mod seconds_per_day.


(** [datetime.timedelta(days=n)] and [DateOffset(days=n)] on a naive
    timestamp. *)
Definition timedelta_days (n : Z) : Z := n * seconds_per_day.

(** [timedelta.days] of a difference of two datetimes: timedeltas are
    normalised with a non-negative seconds part, so this is the floor. *)
Definition days (time_difference : Z) : Z := time_difference / seconds_per_day.

(** *** The proleptic Gregorian calendar of [datetime] *)

Definition is_leap (year : Z) : bool :=
  (year mod 4 =? 0) && (negb (year mod 100 =? 0) || (year mod 400 =? 0)).

Definition days_before_year (year : Z) : Z :=
  let y := year - 1 in
  y * 365 + y / 4 - y / 100 + y / 400.

Definition DAYS_IN_MONTH : list Z :=
  [-1; 31; 28; 31; 30; 31; 30; 31; 31; 30; 31; 30; 31].

Definition DAYS_BEFORE_MONTH : list Z :=
  [-1; 0; 31; 59; 90; 120; 151; 181; 212; 243; 273; 304; 334].

Definition days_in_month (year month : Z) : Z :=
  if (month =? 2) && is_leap year then 29
  else nth (Z.to_nat month) DAYS_IN_MONTH 0.

Definition days_before_month (year month : Z) : Z :=
  nth (Z.to_nat month) DAYS_BEFORE_MONTH 0
  + (if (2 <? month) && is_leap year then 1 else 0).

Definition ymd2ord (year month day : Z) : Z :=
  days_before_year year + days_before_month year month + day.

(** The ordinal of 1970-01-01. *)
Definition epoch_ordinal : Z := 719163.

(** [datetime.date(year, month, day)], which raises [ValueError] outside
    the calendar. *)
Definition make_date (year month day : Z) : Except date :=
  if (1 <=? year) && (year <=? 9999) && (1 <=? month) && (month <=? 12)
     && (1 <=? day) && (day <=? days_in_month year month)
  then ok (ymd2ord year month day - epoch_ordinal)
  else error ValueError.

Definition digit (c : ascii) : option Z :=
  let n := Z.of_N (N_of_ascii c) in
  if (48 <=? n) && (n <=? 57) then Some (n - 48) else None.

(** The directive [%m]: [1[0-2]|0[1-9]|[1-9]]. *)
Definition month_token (s : string) : option Z :=
  match s with
  | String c EmptyString =>
      match digit c with
      | Some n => if 1 <=? n then Some n else None
      | None => None
      end
  | String c1 (String c2 EmptyString) =>
      match digit c1, digit c2 with
      | Some 1, Some n => if n <=? 2 then Some (10 + n) else None
      | Some 0, Some n => if 1 <=? n then Some n else None
      | _, _ => None
      end
  | _ => None
  end.

(** The directive [%d]: [3[01]|[12]\d|0[1-9]|[1-9]| [1-9]]. *)
Definition day_token (s : string) : option Z :=
  match s with
  | String c EmptyString =>
      match digit c with
      | Some n => if 1 <=? n then Some n else None
      | None => None
      end
  | String c1 (String c2 EmptyString) =>
      match digit c2 with
      | None => None
      | Some n =>
          if Ascii.eqb c1 " " then (if 1 <=? n then Some n else None)
          else match digit c1 with
               | Some 3 => if n <=? 1 then Some (30 + n) else None
               | Some 1 => Some (10 + n)
               | Some 2 => Some (20 + n)
               | Some 0 => if 1 <=? n then Some n else None
               | _ => None
               end
      end
  | _ => None
  end.

(** The text before the first ['-'] and the text after it. *)
Fixpoint split_dash (s : string) : option (string * string) :=
  match s with
  | EmptyString => None
  | String c rest =>
      if Ascii.eqb c "-" then Some (EmptyString, rest)
      else match split_dash rest with
           | Some (a, b) => Some (String c a, b)
           | None => None
           end
  end.

(** [datetime.strptime(s, '%Y-%m-%d').date()]: four digits of year, a
    dash, a month, a dash and a day with nothing left over; anything else
    is a [ValueError]. *)
Definition strptime_ymd (s : string) : Except date :=
  match s with
  | String y1 (String y2 (String y3 (String y4 (String dash rest)))) =>
      match digit y1, digit y2, digit y3, digit y4 with
      | Some a, Some b, Some c, Some d =>
          if Ascii.eqb dash "-" then
            match split_dash rest with
            | Some (m, dd) =>
                match month_token m, day_token dd with
                | Some month, Some day =>
                    make_date (1000 * a + 100 * b + 10 * c + d) month day
                | _, _ => error ValueError
                end
            | None => error ValueError
            end
          else error ValueError
      | _, _, _, _ => error ValueError
      end
  | _ => error ValueError
  end.

End Time.

Import Time.

(** ** The dataframe operations the notebooks call *)

Module Pandas.

(** A float64 cell.  Finite values are taken as exact rationals; [NaN] is
    also what [read_csv] stores for an empty cell. *)
Inductive float : Type :=
| NaN
| NegInf
| Num (q : Q)
| PosInf.

(** [a <= b] on float64: false as soon as one side is [NaN]. *)
Definition fle (a b : float) : bool :=
  match a, b with
  | NaN, _ => false
  | _, NaN => false
  | NegInf, _ => true
  | _, PosInf => true
  | Num x, Num y => Qle_bool x y
  | _, _ => false
  end.

(** [a < b] on float64. *)
Definition flt (a b : float) : bool :=
  match a, b with
  | NaN, _ => false
  | _, NaN => false
  | _, _ => negb (fle b a)
  end.

Definition fge (a b : float) : bool := fle b a.
Definition fgt (a b : float) : bool := flt b a.

Definition of_int (z : Z) : float := Num (inject_Z z).

(** [a / n] in float arithmetic with a non-zero integer [n]; [None] when
    [n] is 0, where the outcome (inf, nan or a [ZeroDivisionError]) depends
    on the dtype of the column. *)
Definition true_divide (a : Q) (n : Z) : option Q :=
  if n =? 0 then None else Some (a / inject_Z n)%Q.

(** A row of a dataframe indexed by [DateTime] with a [Volume] column;
    [other] holds the remaining columns. [name] is the index label. *)
Record row (O : Type) : Type := mk_row {
  name : Timestamp;
  Volume : Z;
  other : O
}.

Definition DataFrame (O : Type) : Type := list (row O).

Definition sum (l : list Z) : Z := fold_right Z.add 0 l.

(** [Index.unique()]: the distinct values in order of first appearance. *)
Fixpoint unique (l : list Z) : list Z :=
  match l with
  | [] => []
  | x :: l' => x :: filter (fun y => negb (y =? x)) (unique l')
  end.

(** The group keys of [groupby]: distinct and ascending. *)
Fixpoint insert_key (k : Z) (l : list Z) : list Z :=
  match l with
  | [] => [k]
  | x :: l' =>
      if k <? x then k :: l
      else if k =? x then l
      else x :: insert_key k l'
  end.

Definition group_keys (l : list Z) : list Z := fold_right insert_key [] l.

Definition list_min (x : Z) (l : list Z) : Z := fold_right Z.min x l.
Definition list_max (x : Z) (l : list Z) : Z := fold_right Z.max x l.

(** The start of the one-minute bin a timestamp falls in. *)
Definition floor_minute (t : Timestamp) : Timestamp := 60 * (t / 60).

(** The bins of [resample('1T')]: every minute from the bin of the earliest
    row to the bin of the latest one, none for an empty frame. *)
Definition bins (index : list Timestamp) : list Timestamp :=
  match index with
  | [] => []
  | t :: ts =>
      let lo := floor_minute (list_min t ts) in
      let hi := floor_minute (list_max t ts) in
      map (fun k => lo + 60 * Z.of_nat k) (seq 0 (S (Z.to_nat ((hi - lo) / 60))))
  end.

Section Columns.

Variable O : Type.
(** The column-wise sum of the remaining columns of a group of rows. *)
Variable sum_other : list O -> O.

(** [df[['Volume']]] *)
Definition select_Volume (df : DataFrame O) : DataFrame unit :=
  map (fun r => mk_row (name r) (Volume r) tt) df.

(** [df.resample('1T').sum()]: one row per bin, an empty bin summing to 0. *)
Definition resample_1T_sum (df : DataFrame O) : DataFrame O :=
  map (fun b =>
         let g := filter (fun r => floor_minute (name r) =? b) df in
         mk_row b (sum (map (@Volume O) g)) (sum_other (map (@other O) g)))
      (bins (map (@name O) df)).

(** [df.groupby(lambda x: x.time()).sum()]: one row per time of day, keys
    ascending, every column summed over the rows at that time. *)
Definition groupby_time_sum (df : DataFrame O) : list (time * (Z * O)) :=
  map (fun k =>
         let g := filter (fun r => time_of (name r) =? k) df in
         (k, (sum (map (@Volume O) g), sum_other (map (@other O) g))))
      (group_keys (map (fun r => time_of (name r)) df)).

(** [df.loc['YYYY-MM-DD']] on a datetime index: the rows of that day in row
    order, a [KeyError] when there is none. *)
Definition loc_day (df : DataFrame O) (day : date) : Except (DataFrame O) :=
  match filter (fun r => date_of (name r) =? day) df with
  | [] => error KeyError
  | rows => ok rows
  end.

End Columns.

(** Look a key up in a frame indexed by time of day. *)
Fixpoint lookup {A : Type} (k : time) (df : list (time * A)) : option A :=
  match df with
  | [] => None
  | (k', a) :: df' => if k' =? k then Some a else lookup k df'
  end.

End Pandas.

Import Pandas.

(** ** [sklearn.preprocessing.MinMaxScaler], as the notebooks use it *)

Module Sklearn.

(** The float64 machine epsilon, [np.finfo(float).eps]. *)
Definition eps : Q := 1 # (2 ^ 52).

Record MinMaxScaler : Type := mk_scaler {
  feature_range : Q * Q;
  data_min_ : list Q;
  data_max_ : list Q;
  data_range_ : list Q;
  scale_ : list Q;
  min_ : list Q
}.

Definition qmin (x : Q) (l : list Q) : Q := fold_right Qmin x l.
Definition qmax (x : Q) (l : list Q) : Q := fold_right Qmax x l.

(** Feature [j] of a two-dimensional array. *)
Definition column (j : nat) (X : list (list Q)) : list Q :=
  map (fun x => nth j x 0%Q) X.

(** A range below ten epsilons counts as constant and is scaled by 1. *)
Definition handle_zeros_in_scale (scale : list Q) : list Q :=
  map (fun r => if Qle_bool (10 * eps) r then r else 1%Q) scale.

(** [scaler.fit(X)]: at least one sample and one feature are required. *)
Definition fit (range : Q * Q) (X : list (list Q)) : Except MinMaxScaler :=
  match X with
  | [] => error ValueError
  | [] :: _ => error ValueError
  | x0 :: X' =>
      let features := seq 0 (List.length x0) in
      let data_min := map (fun j => qmin (nth j x0 0%Q) (column j X')) features in
      let data_max := map (fun j => qmax (nth j x0 0%Q) (column j X')) features in
      let data_range := map (fun '(hi, lo) => (hi - lo)%Q) (combine data_max data_min) in
      let scale := map (fun r => ((snd range - fst range) / r)%Q)
                       (handle_zeros_in_scale data_range) in
      let mins := map (fun '(lo, s) => (fst range - lo * s)%Q) (combine data_min scale) in
      ok (mk_scaler range data_min data_max data_range scale mins)
  end.

(** [scaler.transform(X)]: [X * scale_ + min_], feature by feature. *)
Definition transform (scaler : MinMaxScaler) (X : list (list Q)) : list (list Q) :=
  map (fun x =>
         map (fun '(v, (s, m)) => (v * s + m)%Q)
             (combine x (combine (scale_ scaler) (min_ scaler))))
      X.

End Sklearn.

(** ** The notebook splitting by a cutoff date *)

Module SplitByCutoffDate.

Definition SPLIT_DATE_CUTOFF : string := "2015-07-02".

Section Frames.

Variable O : Type.
Variable sum_other : list O -> O.

Definition get_unique_trading_days (df : DataFrame O) : list date :=
  let unique_trading_days := unique (map (fun r => date_of (name r)) df) in
  unique_trading_days.

Definition combine_data_frames (df1 df2 : DataFrame O) : DataFrame O :=
  let combined_df := df1 ++ df2 in
  combined_df.

Definition resample_volume_by_minute (df : DataFrame O) : list (time * Z) :=
  let df_temp := select_Volume (resample_1T_sum sum_other df) in
  let df_volume_by_minute :=
    map (fun '(k, (v, _)) => (k, v)) (groupby_time_sum (fun _ => tt) df_temp) in
  df_volume_by_minute.

(** The function reads the notebook's global [master_ungrouped_df], which
    is made an explicit argument here, and never its parameter [df]. *)
Definition split_dataframe_by_date (master_ungrouped_df : DataFrame O)
    (df : DataFrame O) (split_date : string)
  : Except (DataFrame O * DataFrame O) :=
  d <- strptime_ymd split_date ;;
  let before_date_df :=
    filter (fun r => date_of (name r) <? d) master_ungrouped_df in
  d' <- strptime_ymd split_date ;;
  let after_date_df :=
    filter (fun r => d' <=? date_of (name r)) master_ungrouped_df in
  ok (before_date_df, after_date_df).



End Frames.

(** The files of [../data/raw/firstratedata_futures]: a name is mapped to
    the [DateTime] and [Volume] columns [read_csv] parses from it, or to
    nothing where there is no such file. *)
Definition csv_store : Type := string -> option (DataFrame unit).

Definition convert_csv_to_df (store : csv_store) (filename : string)
  : Except (DataFrame unit) :=
  match store filename with
  | Some df_volume => ok df_volume
  | None => error FileNotFoundError
  end.

Fixpoint get_master_ungrouped_data_frame_from (store : csv_store)
    (initial_df : DataFrame unit) (files_to_process : list string)
  : Except (DataFrame unit) :=
  match files_to_process with
  | [] => ok initial_df
  | file :: rest =>
      a_contract_df <- convert_csv_to_df store file ;;
      get_master_ungrouped_data_frame_from store
        (combine_data_frames initial_df a_contract_df) rest
  end.

Definition get_master_ungrouped_data_frame (store : csv_store)
    (files_to_process : list string) : Except (DataFrame unit) :=
  get_master_ungrouped_data_frame_from store [] files_to_process.

(** The index of [initialize_df_grouped_by_minute()]: the 1440 minutes of
    a day; the frame has no column. *)
Definition initialize_df_grouped_by_minute : list time :=
  map (fun k => 60 * Z.of_nat k) (seq 0 1440).

Record nominal : Type := mk_nominal {
  Total_Volume : Z;
  Average_Volume : option Q
}.

(** The rename of [Volume] to a total and the added average column. *)
Definition with_average (by_minute_df : list (time * Z))
    (num_unique_trading_days : Z) : list (time * nominal) :=
  map (fun '(k, v) =>
         (k, mk_nominal v (true_divide (inject_Z v) num_unique_trading_days)))
      by_minute_df.

(** The row labels of [pd.concat(..., axis=1)]: those of the first frame,
    then the new ones of each later frame. *)
Definition union_index (a b : list time) : list time :=
  a ++ filter (fun k => negb (existsb (Z.eqb k) a)) b.

(** A row of the master frame: the before and the after columns, missing
    where that side has no row at the minute. *)
Definition get_master_avg_daily_nominal_df
    (before_date_by_minute_df after_date_by_minute_df : list (time * Z))
    (num_before_date_unique_trading_days num_after_date_unique_trading_days : Z)
  : list (time * (option nominal * option nominal)) :=
  let master_avg_daily_nominal_df := initialize_df_grouped_by_minute in
  let before_date_by_minute_df :=
    with_average before_date_by_minute_df num_before_date_unique_trading_days in
  let after_date_by_minute_df :=
    with_average after_date_by_minute_df num_after_date_unique_trading_days in
  let index :=
    union_index (union_index master_avg_daily_nominal_df
                             (map fst before_date_by_minute_df))
                (map fst after_date_by_minute_df) in
  map (fun k => (k, (lookup k before_date_by_minute_df,
                     lookup k after_date_by_minute_df)))
      index.

Definition clean_master_avg_daily_nominal_df
    (master_avg_daily_nominal_df : list (time * (option nominal * option nominal)))
  : list (time * (option Q * option Q)) :=
  map (fun '(k, (b, a)) =>
         (k, (match b with Some c => Average_Volume c | None => None end,
              match a with Some c => Average_Volume c | None => None end)))
      master_avg_daily_nominal_df.

Definition normalize_nd_array (to_normalize : list (list Z)) : Except (list Q) :=
  let X := map (map inject_Z) to_normalize in
  scaler <- Sklearn.fit (0%Q, 1%Q) X ;;
  let normalized := Sklearn.transform scaler X in
  mapM (fun x => match x with
                 | v :: _ => ok v
                 | [] => error IndexError
                 end) normalized.






(** The cells that chart the nominal averages: both sides of the split
    are resampled and averaged over their own count of trading days. *)
Definition master_avg_daily_nominal_df {O : Type} (sum_other : list O -> O)
    (before_date_df after_date_df : DataFrame O)
  : list (time * (option nominal * option nominal)) :=
  let before_date_unique_trading_days := get_unique_trading_days before_date_df in
  let after_date_unique_trading_days := get_unique_trading_days after_date_df in
  let num_before_date_unique_trading_days :=
    Z.of_nat (List.length before_date_unique_trading_days) in
  let num_after_date_unique_trading_days :=
    Z.of_nat (List.length after_date_unique_trading_days) in
  let before_date_by_minute_df := resample_volume_by_minute sum_other before_date_df in
  let after_date_by_minute_df := resample_volume_by_minute sum_other after_date_df in
  get_master_avg_daily_nominal_df
    before_date_by_minute_df after_date_by_minute_df
    num_before_date_unique_trading_days num_after_date_unique_trading_days.



End SplitByCutoffDate.

(** ** notebooks/commodities_split_by_days_to_expiration.ipynb *)

Module SplitByDaysToExpiration.

Definition DAYS_TO_EXPIRATION_THRESHOLD : float := Num 45.

(** [list.sort()] *)
Fixpoint insort (x : Z) (l : list Z) : list Z :=
  match l with
  | [] => [x]
  | y :: l' => if x <=? y then x :: l else y :: insort x l'
  end.

Definition sort (l : list Z) : list Z := fold_right insort [] l.

(** [l[-1]] *)
Definition last_item {A : Type} (l : list A) : Except A :=
  match rev l with
  | [] => error IndexError
  | a :: _ => ok a
  end.

Section Frames.

Variable O : Type.
Variable sum_other : list O -> O.

Definition get_unique_trading_days (df : DataFrame O) : list date :=
  let unique_trading_days := unique (map (fun r => date_of (name r)) df) in
  unique_trading_days.

Definition combine_data_frames (df1 df2 : DataFrame O) : DataFrame O :=
  let combined_df := df1 ++ df2 in
  combined_df.

Definition resample_volume_by_minute (df : DataFrame O) : list (time * Z) :=
  let df_temp :=
    select_Volume (resample_1T_sum (fun _ => tt) (select_Volume df)) in
  let df_volume_by_minute :=
    map (fun '(k, (v, _)) => (k, v)) (groupby_time_sum (fun _ => tt) df_temp) in
  df_volume_by_minute.

(** The [Days To Contract Expiration] column is the last column here. *)
Definition split_dataframe_by_dte (a_df : DataFrame (O * Z)) (dte_threshold : float)
  : DataFrame (O * Z) * DataFrame (O * Z) :=
  let less_than_or_equal_dte_threshold_df :=
    filter (fun r => fle (of_int (snd (other r))) dte_threshold) a_df in
  let greater_than_dte_threshold_df :=
    filter (fun r => fgt (of_int (snd (other r))) dte_threshold) a_df in
  (less_than_or_equal_dte_threshold_df, greater_than_dte_threshold_df).

Definition calculate_dte_for_row (row : row O)
    (last_unique_trading_minute_in_contract : Timestamp) : Z :=
  let this_row_date := name row in
  let time_difference := last_unique_trading_minute_in_contract - this_row_date in
  days time_difference.

Definition add_dte_column_to_df (a_contract_df : DataFrame O)
  : Except (DataFrame (O * Z)) :=
  let unique_trading_days := sort (get_unique_trading_days a_contract_df) in
  last_unique_trading_day_in_contract <- last_item unique_trading_days ;;
  last_day_df <- loc_day a_contract_df last_unique_trading_day_in_contract ;;
  last_row <- last_item last_day_df ;;
  let last_unique_trading_minute_in_contract := name last_row in
  ok (map (fun r =>
             mk_row (name r) (Volume r)
               (other r, calculate_dte_for_row r last_unique_trading_minute_in_contract))
          a_contract_df).

End Frames.

Definition normalize_nd_array (to_normalize : list (list Z)) : Except (list Q) :=
  let X := map (map inject_Z) to_normalize in
  scaler <- Sklearn.fit (0%Q, 1%Q) X ;;
  let normalized := Sklearn.transform scaler X in
  mapM (fun x => match x with
                 | v :: _ => ok v
                 | [] => error IndexError
                 end) normalized.

Definition csv_store : Type := string -> option (DataFrame unit).

Definition convert_csv_to_df (store : csv_store) (filename : string)
  : Except (DataFrame unit) :=
  match store filename with
  | Some df_volume => ok df_volume
  | None => error FileNotFoundError
  end.

Fixpoint get_master_ungrouped_data_frame_from (store : csv_store)
    (grouped_df : DataFrame (unit * Z)) (files_to_process : list string)
  : Except (DataFrame (unit * Z)) :=
  match files_to_process with
  | [] => ok grouped_df
  | file :: rest =>
      a_contract_df <- convert_csv_to_df store file ;;
      with_dte_df <- add_dte_column_to_df a_contract_df ;;
      get_master_ungrouped_data_frame_from store
        (combine_data_frames grouped_df with_dte_df) rest
  end.

Definition get_master_ungrouped_data_frame (store : csv_store)
    (files_to_process : list string) : Except (DataFrame (unit * Z)) :=
  get_master_ungrouped_data_frame_from store [] files_to_process.

End SplitByDaysToExpiration.

(** ** notebooks/commodities_split_by_cot_short_interest.ipynb *)

Module CotShortInterest.

(** A row of the Commitment-of-Traders frame once [enrich_with_apply_dates]
    has run. *)
Record cot_row : Type := mk_cot_row {
  Date : Timestamp;
  PMPU_Shorts_Pct_of_OI : float;
  Begin_Apply_Date_Range : Timestamp;
  End_Apply_Date_Range : Timestamp
}.

Record pmpu_around_median : Type := pmpu_shorts_split_by_median {
  above_median_df : list cot_row;
  below_median_df : list cot_row
}.

Definition filter_and_split_cot_shorts_around_median (cot_df : list cot_row)
    (median_pmpu_shorts_percentage : float) : pmpu_around_median :=
  let cot_pmpu_shorts_above_median_df :=
    filter (fun r => fge (PMPU_Shorts_Pct_of_OI r) median_pmpu_shorts_percentage)
           cot_df in
  let cot_pmpu_shorts_below_median_df :=
    filter (fun r => flt (PMPU_Shorts_Pct_of_OI r) median_pmpu_shorts_percentage)
           cot_df in
  pmpu_shorts_split_by_median cot_pmpu_shorts_above_median_df
                              cot_pmpu_shorts_below_median_df.


Definition calc_begin_cot_apply_date_range (report_observation_date : Timestamp) : Timestamp :=
  let begin_apply_date := report_observation_date + timedelta_days 6 in
  begin_apply_date.

Definition calc_end_cot_apply_date_range (report_observation_date : Timestamp) : Timestamp :=
  let end_apply_date := report_observation_date + timedelta_days 12 in
  end_apply_date.






End CotShortInterest.

(** ** notebooks/settlement_and_open_correlation_analysis.ipynb *)

Module SettlementCorrelation.

Record settlement_row : Type := mk_settlement_row {
  settlement_Date : Timestamp;
  Price_Difference_Open_And_Prior_Day_Settlement : float;
  settlement_Symbol : string
}.

Record intraday_row : Type := mk_intraday_row {
  Symbol : string;
  DateTime : Timestamp;
  Open_Minutes_Offset : Z;
  Price_Change_From_Intraday_Open : float;
  DTE : Z
}.

(** The notebook functions return Python's [None] ([None] here too) where
    they find no row, and raise nothing. *)
Definition get_settlement_price_change_for_date (a_date : date)
    (a_settlement_df : list settlement_row) : Except (option float) :=
  let rows_with_date :=
    filter (fun r => date_of (settlement_Date r) =? a_date) a_settlement_df in
  match rows_with_date with
  | [] => ok None
  | r :: _ => ok (Some (Price_Difference_Open_And_Prior_Day_Settlement r))
  end.

Definition get_intraday_price_change_at_minute_sixty (a_date : date)
    (intraday_df : list intraday_row) : Except (option float) :=
  let rows_with_date :=
    filter (fun r => date_of (DateTime r) =? a_date) intraday_df in
  match rows_with_date with
  | [] => ok None
  | _ =>
      let t_sixty_row :=
        filter (fun r => Open_Minutes_Offset r =? 59) rows_with_date in
      match t_sixty_row with
      | [] => ok None
      | r :: _ => ok (Some (Price_Change_From_Intraday_Open r))
      end
  end.

Definition filter_bars_for_dte_with_frequently_missing_open
    (intraday_open_df : list intraday_row)
    (dte_filter_lower_boundary dte_filter_upper_boundary : Z)
  : list intraday_row :=
  filter (fun r => (dte_filter_lower_boundary <=? DTE r)
                   && (DTE r <=? dte_filter_upper_boundary))
         intraday_open_df.

Record prices_for_date : Type := mk_prices_for_date {
  prices_Symbol : string;
  prices_Date : date;
  prices_settlement_price_diff : float;
  CFO_At_Open_t_60 : float
}.

(** The loop over [unique_dates] of one symbol: a date for which either
    lookup came back [None] is skipped. *)
Fixpoint prices_for_dates (a_symbol : string) (unique_dates : list date)
    (a_settlement_change_dataset_for_symbol : list settlement_row)
    (intraday_df_for_symbol : list intraday_row)
  : Except (list prices_for_date) :=
  match unique_dates with
  | [] => ok []
  | a_date :: rest =>
      settlement_price_diff <-
        get_settlement_price_change_for_date a_date
          a_settlement_change_dataset_for_symbol ;;
      intraday_cfo <-
        get_intraday_price_change_at_minute_sixty a_date intraday_df_for_symbol ;;
      tail <- prices_for_dates a_symbol rest
                a_settlement_change_dataset_for_symbol intraday_df_for_symbol ;;
      match settlement_price_diff, intraday_cfo with
      | Some diff, Some cfo =>
          ok (mk_prices_for_date a_symbol a_date diff cfo :: tail)
      | _, _ => ok tail
      end
  end.

End SettlementCorrelation.

(** ** notebooks/commodities_analyze_missing_open_bars.ipynb *)

Module MissingOpenBars.

(** A row of the enriched contract frame. [Date] is the day label the
    notebook derives from [DateTime] with [strftime("%Y-%m-%d")], kept as
    the day it denotes. *)
Record enriched_row : Type := mk_enriched_row {
  Symbol : string;
  DateTime : Timestamp;
  Open_Minutes_Offset : Z;
  DTE : Z
}.

Definition Date (r : enriched_row) : date := date_of (DateTime r).

(** The loop of [filter_rows_where_day_is_missing_open] over the dates
    still to visit. *)
Fixpoint filter_rows_where_day_is_missing_open_loop (unique_dates : list date)
    (contract_df : list enriched_row) : list enriched_row :=
  match unique_dates with
  | [] => contract_df
  | a_date :: rest =>
      let only_this_days_rows_df :=
        filter (fun r => date_of (DateTime r) =? a_date) contract_df in
      let has_actual_open_bar :=
        existsb (fun r => Open_Minutes_Offset r =? 0) only_this_days_rows_df in
      let contract_df :=
        if negb has_actual_open_bar
        then filter (fun r => negb (date_of (DateTime r) =? a_date)) contract_df
        else contract_df in
      filter_rows_where_day_is_missing_open_loop rest contract_df
  end.

Definition filter_rows_where_day_is_missing_open (contract_df : list enriched_row)
  : list enriched_row :=
  let unique_dates := unique (map (fun r => date_of (DateTime r)) contract_df) in
  filter_rows_where_day_is_missing_open_loop unique_dates contract_df.

Fixpoint filter_rows_where_day_contains_open_loop (unique_dates : list date)
    (contract_df : list enriched_row) : list enriched_row :=
  match unique_dates with
  | [] => contract_df
  | a_date :: rest =>
      let only_this_days_rows_df :=
        filter (fun r => date_of (DateTime r) =? a_date) contract_df in
      let has_actual_open_bar :=
        existsb (fun r => Open_Minutes_Offset r =? 0) only_this_days_rows_df in
      let contract_df :=
        if has_actual_open_bar
        then filter (fun r => negb (date_of (DateTime r) =? a_date)) contract_df
        else contract_df in
      filter_rows_where_day_contains_open_loop rest contract_df
  end.

Definition filter_rows_where_day_contains_open (contract_df : list enriched_row)
  : list enriched_row :=
  let unique_dates := unique (map (fun r => date_of (DateTime r)) contract_df) in
  filter_rows_where_day_contains_open_loop unique_dates contract_df.

Definition calculate_num_unique_dates_for_contract (contract_df : list enriched_row)
    (symbol : string) : nat :=
  let missing_open_for_contract_df :=
    filter (fun r => String.eqb (Symbol r) symbol) contract_df in
  let missing_open_dates_series_unique :=
    unique (map Date missing_open_for_contract_df) in
  let num_missing_open_dates_series_unique :=
    List.length missing_open_dates_series_unique in
  num_missing_open_dates_series_unique.

End MissingOpenBars.

(** ** The zsh scripts of data/scripts *)

Module Scripts.

Local Open Scope string_scope.

Local Unset Elimination Schemes.

(** A file-system entry below the current directory. *)
Inductive node : Type :=
| File (content : string)
| Dir (entries : list (string * node)).

Local Set Elimination Schemes.

Definition directory : Type := list (string * node).

Definition newline : string := String "010" EmptyString.

Definition ends_with (suffix s : string) : bool :=
  let n := String.length s in
  let m := String.length suffix in
  (m <=? n)%nat && String.eqb (substring (n - m) m s) suffix.

(** The parameter expansion [${file%suffix}]. *)
Definition strip_suffix (suffix s : string) : string :=
  if ends_with suffix s
  then substring 0 (String.length s - String.length suffix) s
  else s.

Definition hidden (s : string) : bool :=
  match s with
  | String "." _ => true
  | _ => false
  end.

Fixpoint insert_name (x : string) (l : list string) : list string :=
  match l with
  | [] => [x]
  | y :: l' => if String.leb x y then x :: l else y :: insert_name x l'
  end.

(** The glob [*.txt] in the current directory: the names of its entries
    that end in [.txt] and do not start with a dot, sorted. *)
Definition glob_txt (cwd : directory) : list string :=
  fold_right insert_name []
    (filter (fun nm => negb (hidden nm) && ends_with ".txt" nm) (map fst cwd)).

(** The rename script, as the [mv source target] commands its loop runs. *)
Definition rename_txt_to_csv (cwd : directory) : list (string * string) :=
  map (fun file => (file, strip_suffix ".txt" file ++ ".csv")) (glob_txt cwd).

(** [find . -name "*.csv"]: every entry at any depth whose name ends in
    [.csv], a directory before its content. *)
Fixpoint find_csv_at (path name : string) (n : node) : list string :=
  ((if ends_with ".csv" name then [path] else [])
  ++ match n with
     | File _ => []
     | Dir entries =>
         (fix walk (es : list (string * node)) : list string :=
            match es with
            | [] => []
            | (nm, child) :: es' =>
                (find_csv_at (path ++ "/" ++ nm) nm child ++ walk es')%list
            end) entries
     end)%list.

Definition find_csv (cwd : directory) : list string :=
  find_csv_at "." "." (Dir cwd).

Definition is_IFS (c : ascii) : bool :=
  Ascii.eqb c " " || Ascii.eqb c "009" || Ascii.eqb c "010" || Ascii.eqb c "000".

(** Split at every character [sep] holds for; [acc] is the piece read so
    far, reversed. *)
Fixpoint split_on (sep : ascii -> bool) (acc : string) (s : string) : list string :=
  match s with
  | EmptyString => [acc]
  | String c rest =>
      if sep c then acc :: split_on sep EmptyString rest
      else split_on sep (acc ++ String c EmptyString) rest
  end.

Definition nonempty (s : string) : bool := negb (String.eqb s "").

(** The words of an unquoted [$(...)]: the output split at white space. *)
Definition command_substitution (output : list string) : list string :=
  filter nonempty (split_on is_IFS "" (String.concat newline output)).

Definition header : string := "DateTime,Open,High,Low,Close,Volume".

(** The first input line of sed and what follows it (with its newline). *)
Fixpoint read_line (s : string) : string * string :=
  match s with
  | EmptyString => (EmptyString, EmptyString)
  | String c rest =>
      if Ascii.eqb c "010" then (EmptyString, s)
      else let (line, more) := read_line rest in (String c line, more)
  end.

(** [gsed '1s/^/replacement/']: the substitution applies to line 1; input
    without a single line has no line 1 and comes out empty. *)
Definition gsed_1s_start (replacement content : string) : string :=
  match content with
  | EmptyString => EmptyString
  | _ =>
      let (line, more) := read_line content in
      (replacement ++ line) ++ more
  end.

(** The components of a path word, or nothing for a word that leaves the
    current directory. *)
Definition components (word : string) : option (list string) :=
  match word with
  | String "/" _ => None
  | _ =>
      let cs := split_on (Ascii.eqb "/") "" word in
      if existsb (String.eqb "..") cs then None
      else Some (filter (fun c => nonempty c && negb (String.eqb c ".")) cs)
  end.

(** Edit in place the regular file a path leads to; anything else (no such
    file, a directory) leaves the tree as it is. *)
Fixpoint edit (f : string -> string) (path : list string) (entries : directory)
  : directory :=
  match path with
  | [] => entries
  | [c] =>
      map (fun '(nm, n) =>
             if String.eqb nm c
             then match n with
                  | File s => (nm, File (f s))
                  | Dir _ => (nm, n)
                  end
             else (nm, n))
          entries
  | c :: rest =>
      map (fun '(nm, n) =>
             if String.eqb nm c
             then match n with
                  | File _ => (nm, n)
                  | Dir es => (nm, Dir (edit f rest es))
                  end
             else (nm, n))
          entries
  end.

Definition gsed_in_place (file : string) (cwd : directory) : directory :=
  match components file with
  | None => cwd
  | Some path =>
      edit (gsed_1s_start (header ++ newline)) path cwd
  end.

(** add_header.sh: the loop over the words of [$(find . -name "*.csv")]. *)
Definition add_header (cwd : directory) : directory :=
  fold_left (fun fs file => gsed_in_place file fs)
            (command_substitution (find_csv cwd)) cwd.

(** The content of the regular file at a path, if there is one. *)
Fixpoint read (path : list string) (entries : directory) : option string :=
  match path with
  | [] => None
  | c :: rest =>
      match find (fun e => String.eqb (fst e) c) entries with
      | Some (_, File s) => match rest with [] => Some s | _ => None end
      | Some (_, Dir es) => read rest es
      | None => None
      end
  end.

End Scripts.

(** ** Vocabulary of the statements *)

Module Spec.

Definition is_nan (x : float) : bool :=
  match x with
  | NaN => true
  | _ => false
  end.




(** The volume a segment traded at a minute of the day, over all its days. *)
Definition segment_volume_at {O : Type} (m : time) (df : DataFrame O) : Z :=
  sum (map (@Volume O)
           (filter (fun r => time_of (floor_minute (name r)) =? m) df)).

(** The day has a bar at the market open (minute offset 0). *)
Definition has_open_bar (contract_df : list MissingOpenBars.enriched_row)
    (day : date) : bool :=
  existsb (fun r => (date_of (MissingOpenBars.DateTime r) =? day)
                    && (MissingOpenBars.Open_Minutes_Offset r =? 0))
          contract_df.

(** Strictly ascending. *)
Fixpoint ascending (l : list Z) : Prop :=
  match l with
  | [] => True
  | x :: l' => (forall y, In y l' -> x < y) /\ ascending l'
  end.

(** The text has none of the characters [sep] holds for. *)
Fixpoint free_of (sep : ascii -> bool) (s : string) : bool :=
  match s with
  | EmptyString => true
  | String c rest => negb (sep c) && free_of sep rest
  end.

(** A file name as a directory can hold it and that survives the word
    splitting of the shell: not empty, not [.] or [..], without a slash and
    without white space. *)
Definition plain_name (nm : string) : bool :=
  Scripts.nonempty nm
  && negb (String.eqb nm ".") && negb (String.eqb nm "..")
  && free_of (fun c => Ascii.eqb "/" c || Scripts.is_IFS c) nm.

(** The edit [gsed -i] makes through [Scripts.edit], seen from the entry
    the first component of the path has selected. *)
Definition edit_node (f : string -> string) (path : list string)
    (n : Scripts.node) : Scripts.node :=
  match path, n with
  | [], Scripts.File s => Scripts.File (f s)
  | [], Scripts.Dir es => Scripts.Dir es
  | _ :: _, Scripts.File s => Scripts.File s
  | _ :: _, Scripts.Dir es => Scripts.Dir (Scripts.edit f path es)
  end.

(** The paths, as lists of names from the current directory, of the
    entries at any depth whose name ends in [.csv]; a directory comes
    before its content. *)
Fixpoint csv_paths_node (n : Scripts.node) : list (list string) :=
  match n with
  | Scripts.File _ => []
  | Scripts.Dir entries =>
      (fix walk (es : list (string * Scripts.node)) : list (list string) :=
         match es with
         | [] => []
         | (nm, child) :: es' =>
             (if Scripts.ends_with ".csv" nm then [[nm]] else [])
             ++ map (cons nm) (csv_paths_node child) ++ walk es'
         end) entries
  end.

Definition csv_paths (cwd : Scripts.directory) : list (list string) :=
  csv_paths_node (Scripts.Dir cwd).

(** The path [find] prints for a list of names: [./a/b/c]. *)
Definition render (path : list string) : string :=
  fold_left (fun s c => (s ++ "/" ++ c)%string) path "."%string.

(** The tree in which every regular file whose name ends in [.csv], at
    any depth, has had its content changed by [f]. *)
Fixpoint map_csv_node (f : string -> string) (n : Scripts.node) : Scripts.node :=
  match n with
  | Scripts.File s => Scripts.File s
  | Scripts.Dir entries =>
      Scripts.Dir
        ((fix walk (es : list (string * Scripts.node)) : list (string * Scripts.node) :=
            match es with
            | [] => []
            | (nm, child) :: es' =>
                (nm, match child with
                     | Scripts.File s =>
                         Scripts.File (if Scripts.ends_with ".csv" nm then f s else s)
                     | Scripts.Dir _ => map_csv_node f child
                     end) :: walk es'
            end) entries)
  end.

Definition map_csv (f : string -> string) (cwd : Scripts.directory)
  : Scripts.directory :=
  match map_csv_node f (Scripts.Dir cwd) with
  | Scripts.Dir es => es
  | Scripts.File _ => []
  end.

(** The text of a rendered path after its leading dot: [/a/b/c]. *)
Fixpoint path_tail (path : list string) : string :=
  match path with
  | [] => EmptyString
  | c :: q => ("/" ++ c ++ path_tail q)%string
  end.

(** A tree as a file system holds it and as the loop of add_header.sh
    can name it: in every directory the names are distinct and plain. *)
Fixpoint tidy_node (n : Scripts.node) : Prop :=
  match n with
  | Scripts.File _ => True
  | Scripts.Dir entries =>
      NoDup (map fst entries)
      /\ (fix walk (es : list (string * Scripts.node)) : Prop :=
            match es with
            | [] => True
            | (nm, child) :: es' =>
                plain_name nm = true /\ tidy_node child /\ walk es'
            end) entries
  end.

Definition tidy (cwd : Scripts.directory) : Prop := tidy_node (Scripts.Dir cwd).




End Spec.

Import Spec.

(** * Properties *)

Section CalendarFacts.

Lemma date_of_shift (t n : Z) :
  date_of (t + timedelta_days n) = date_of t + n.
Proof.
  unfold date_of, timedelta_days, seconds_per_day.
  rewrite Z.div_add by lia. reflexivity.
Qed.




End CalendarFacts.

Import CotShortInterest.






(** ** Threshold splits *)

Section FilterFacts.

Context {A : Type}.

Lemma filter_complement_permutation (p q : A -> bool) (l : list A) :
  (forall x, In x l -> q x = negb (p x)) ->
  Permutation (filter p l ++ filter q l) l.
Proof.
  induction l as [|a l IH]; intros H; simpl.
  - constructor.
  - rewrite (H a (or_introl eq_refl)).
    assert (IH' : Permutation (filter p l ++ filter q l) l)
      by (apply IH; intros x Hx; apply H; right; exact Hx).
    destruct (p a); simpl.
    + constructor. exact IH'.
    + symmetry. apply Permutation_cons_app. symmetry. exact IH'.
Qed.

Lemma filter_complement_disjoint (p q : A -> bool) (l : list A) (x : A) :
  (forall y, In y l -> p y = true -> q y = false) ->
  In x (filter p l) -> In x (filter q l) -> False.
Proof.
  intros H Hp Hq.
  apply filter_In in Hp. apply filter_In in Hq.
  destruct Hp as [Hx Hp]. destruct Hq as [_ Hq].
  rewrite (H x Hx Hp) in Hq. discriminate.
Qed.

Lemma filter_complement_length (p q : A -> bool) (l : list A) :
  (forall x, In x l -> q x = negb (p x)) ->
  (List.length (filter p l) + List.length (filter q l))%nat = List.length l.
Proof.
  intros H. rewrite <- length_app.
  apply Permutation_length. apply filter_complement_permutation. exact H.
Qed.

End FilterFacts.

Lemma flt_complement (a b : float) :
  is_nan a = false -> is_nan b = false -> flt a b = negb (fle b a).
Proof. destruct a, b; simpl; intros; try discriminate; reflexivity. Qed.

Lemma nan_le_false (a : float) : fle a NaN = false /\ fle NaN a = false.
Proof. destruct a; split; reflexivity. Qed.

Lemma nan_lt_false (a : float) : flt a NaN = false /\ flt NaN a = false.
Proof. destruct a; split; reflexivity. Qed.

Lemma is_nan_false (x : float) : x <> NaN -> is_nan x = false.
Proof. destruct x; intros H; try reflexivity. contradiction H; reflexivity. Qed.

Lemma split_dataframe_by_date_ok (O : Type) (g df : DataFrame O)
    (split_date : string) (d : date) :
  strptime_ymd split_date = ok d ->
  SplitByCutoffDate.split_dataframe_by_date g df split_date
  = ok (filter (fun r => date_of (name r) <? d) g,
        filter (fun r => d <=? date_of (name r)) g).
Proof.
  intros H. unfold SplitByCutoffDate.split_dataframe_by_date.
  rewrite H. reflexivity.
Qed.


(** C6. [split_dataframe_by_date] returns the same pair whatever dataframe
    is passed as its parameter [df], for the same [split_date] and the same
    global [master_ungrouped_df]: with a date that parses, the pair is the
    rows of the global before the date and the rows of the global on or
    after it. *)
Theorem C6_split_by_date_ignores_its_argument :
  forall (O : Type) (master_ungrouped_df df1 df2 : DataFrame O) (split_date : string),
    SplitByCutoffDate.split_dataframe_by_date master_ungrouped_df df1 split_date
    = SplitByCutoffDate.split_dataframe_by_date master_ungrouped_df df2 split_date
    /\ (forall d, strptime_ymd split_date = ok d ->
          SplitByCutoffDate.split_dataframe_by_date master_ungrouped_df df1 split_date
          = ok (filter (fun r => date_of (name r) <? d) master_ungrouped_df,
                filter (fun r => d <=? date_of (name r)) master_ungrouped_df)).
Proof.
  intros. split.
  - reflexivity.
  - intros d H. apply split_dataframe_by_date_ok. exact H.
Qed.

Lemma C6_witness :
  let g := [mk_row 1435831200 5 tt; mk_row 1435744800 7 tt] in
  SplitByCutoffDate.split_dataframe_by_date g [] "2015-07-02"
  = SplitByCutoffDate.split_dataframe_by_date g [mk_row 0 1 tt] "2015-07-02"
  /\ SplitByCutoffDate.split_dataframe_by_date g [] "2015-07-02"
     = ok ([mk_row 1435744800 7 tt], [mk_row 1435831200 5 tt]).
Proof.
  intros g.
  destruct (C6_split_by_date_ignores_its_argument g [] [mk_row 0 1 tt] "2015-07-02")
    as [H1 H2].
  split.
  - exact H1.
  - rewrite (H2 16618 eq_refl). reflexivity.
Defined.

Import CotShortInterest.

(** C1, as stated, fails. A report row whose short-interest cell is
    missing compares false on both sides and lands in neither output of
    [filter_and_split_cot_shorts_around_median], so the counts do not add up
    to the input; a NaN threshold does the same to every row of
    [split_dataframe_by_dte]; and [split_dataframe_by_date] returns rows of
    the global frame, so its counts do not add up to the rows of a
    different argument. *)
Lemma C1_counterexample :
  (let cot_df := [mk_cot_row 0 (Num 40) 518400 1036800;
                  mk_cot_row 604800 NaN 1123200 1641600] in
   let s := filter_and_split_cot_shorts_around_median cot_df (Num 40) in
   (List.length (above_median_df s) + List.length (below_median_df s))%nat
   <> List.length cot_df)
  /\
  (let a_df := [mk_row 1435831200 5 (tt, 12)] in
   let (lte, gt) := SplitByDaysToExpiration.split_dataframe_by_dte a_df NaN in
   (List.length lte + List.length gt)%nat <> List.length a_df)
  /\
  (let master_ungrouped_df := [mk_row 1435831200 5 tt; mk_row 1435744800 7 tt] in
   let df := @nil (row unit) in
   exists before_date_df after_date_df,
     SplitByCutoffDate.split_dataframe_by_date master_ungrouped_df df "2015-07-02"
     = ok (before_date_df, after_date_df)
     /\ (List.length before_date_df + List.length after_date_df)%nat
        <> List.length df).
Proof.
  split; [|split].
  - vm_compute. discriminate.
  - vm_compute. discriminate.
  - eexists. eexists. split.
    + vm_compute. reflexivity.
    + vm_compute. discriminate.
Qed.

(** C1, amended. Each threshold split partitions the rows it filters whose
    key can be compared.  [split_dataframe_by_dte] with a threshold that is
    not NaN puts every row of its input in exactly one output.
    [filter_and_split_cot_shorts_around_median] with a median that is not
    NaN puts every row whose short-interest value is not NaN in exactly one
    output and a row with a NaN value in neither, so the two row counts add
    up to the number of rows with a value.  [split_dataframe_by_date],
    called as the notebook calls it, on the global [master_ungrouped_df]
    with a date that parses, puts every row in exactly one output. *)
Theorem C1_threshold_splits_partition_comparable_rows :
  (forall (O : Type) (a_df : DataFrame (O * Z)) (dte_threshold : float),
      dte_threshold <> NaN ->
      let (lte, gt) := SplitByDaysToExpiration.split_dataframe_by_dte a_df dte_threshold in
      Permutation (lte ++ gt) a_df
      /\ (forall r, In r lte -> In r gt -> False)
      /\ (List.length lte + List.length gt)%nat = List.length a_df)
  /\
  (forall (cot_df : list cot_row) (median_pmpu_shorts_percentage : float),
      median_pmpu_shorts_percentage <> NaN ->
      let s := filter_and_split_cot_shorts_around_median
                 cot_df median_pmpu_shorts_percentage in
      let with_value :=
        filter (fun r => negb (is_nan (PMPU_Shorts_Pct_of_OI r))) cot_df in
      Permutation (above_median_df s ++ below_median_df s) with_value
      /\ (forall r, In r (above_median_df s) -> In r (below_median_df s) -> False)
      /\ (forall r, PMPU_Shorts_Pct_of_OI r = NaN ->
                    ~ In r (above_median_df s) /\ ~ In r (below_median_df s))
      /\ (List.length (above_median_df s) + List.length (below_median_df s))%nat
         = List.length with_value)
  /\
  (forall (O : Type) (master_ungrouped_df : DataFrame O) (split_date : string) (d : date),
      strptime_ymd split_date = ok d ->
      exists before_date_df after_date_df,
        SplitByCutoffDate.split_dataframe_by_date
          master_ungrouped_df master_ungrouped_df split_date
        = ok (before_date_df, after_date_df)
        /\ Permutation (before_date_df ++ after_date_df) master_ungrouped_df
        /\ (forall r, In r before_date_df -> In r after_date_df -> False)
        /\ (List.length before_date_df + List.length after_date_df)%nat
           = List.length master_ungrouped_df).
Proof.
  split; [|split].
  - intros O a_df t Ht. unfold SplitByDaysToExpiration.split_dataframe_by_dte.
    assert (Hc : forall x : row (O * Z), In x a_df ->
                 fgt (of_int (snd (other x))) t = negb (fle (of_int (snd (other x))) t)).
    { intros x _. unfold fgt. apply flt_complement.
      - apply is_nan_false. exact Ht.
      - reflexivity. }
    split; [|split].
    + apply filter_complement_permutation. exact Hc.
    + intros r. apply filter_complement_disjoint.
      intros y Hy Hp. rewrite (Hc y Hy), Hp. reflexivity.
    + apply filter_complement_length. exact Hc.
  - intros cot_df m Hm. cbv zeta.
    unfold filter_and_split_cot_shorts_around_median. cbn [above_median_df below_median_df].
    set (p := fun r => fge (PMPU_Shorts_Pct_of_OI r) m).
    set (q := fun r => flt (PMPU_Shorts_Pct_of_OI r) m).
    set (v := fun r => negb (is_nan (PMPU_Shorts_Pct_of_OI r))).
    assert (Hnan : forall a, v a = false -> p a = false /\ q a = false).
    { intros a Ha. unfold v, p, q, fge in *.
      destruct (PMPU_Shorts_Pct_of_OI a); try discriminate.
      split; [apply nan_le_false | reflexivity]. }
    assert (Hpv : forall l, filter p l = filter p (filter v l)).
    { induction l as [|a l IH]; simpl; [reflexivity|].
      destruct (v a) eqn:Ev; simpl.
      - destruct (p a); rewrite IH; reflexivity.
      - rewrite (proj1 (Hnan a Ev)). exact IH. }
    assert (Hqv : forall l, filter q l = filter q (filter v l)).
    { induction l as [|a l IH]; simpl; [reflexivity|].
      destruct (v a) eqn:Ev; simpl.
      - destruct (q a); rewrite IH; reflexivity.
      - rewrite (proj2 (Hnan a Ev)). exact IH. }
    assert (Hc : forall x, In x (filter v cot_df) -> q x = negb (p x)).
    { intros x Hx. apply filter_In in Hx. destruct Hx as [_ Hx].
      unfold v in Hx. unfold q, p, fge. apply flt_complement.
      - destruct (is_nan (PMPU_Shorts_Pct_of_OI x)); [discriminate|reflexivity].
      - apply is_nan_false. exact Hm. }
    split; [|split; [|split]].
    + rewrite Hpv, Hqv. apply filter_complement_permutation. exact Hc.
    + intros r. rewrite Hpv, Hqv. apply filter_complement_disjoint.
      intros y Hy Hp. rewrite (Hc y Hy), Hp. reflexivity.
    + intros r Hr. split; intros Hin; apply filter_In in Hin; destruct Hin as [_ Hin].
      * unfold p, fge in Hin. rewrite Hr, (proj1 (nan_le_false m)) in Hin. discriminate.
      * unfold q in Hin. rewrite Hr in Hin. discriminate.
    + rewrite Hpv, Hqv. apply filter_complement_length. exact Hc.
  - intros O g split_date d Hd.
    exists (filter (fun r => date_of (name r) <? d) g).
    exists (filter (fun r => d <=? date_of (name r)) g).
    assert (Hc : forall x : row O, In x g ->
                 (d <=? date_of (name x)) = negb (date_of (name x) <? d)).
    { intros x _. destruct (Z.leb_spec d (date_of (name x)));
        destruct (Z.ltb_spec (date_of (name x)) d); try reflexivity; lia. }
    split; [|split; [|split]].
    + apply split_dataframe_by_date_ok. exact Hd.
    + apply filter_complement_permutation. exact Hc.
    + intros r. apply filter_complement_disjoint.
      intros y Hy Hp. rewrite (Hc y Hy), Hp. reflexivity.
    + apply filter_complement_length. exact Hc.
Qed.

Lemma C1_witness :
  (let a_df := [mk_row 0 1 (tt, 50); mk_row 60 2 (tt, 10); mk_row 120 3 (tt, 45)] in
   let (lte, gt) :=
     SplitByDaysToExpiration.split_dataframe_by_dte a_df (Num 45) in
   (List.length lte + List.length gt)%nat = List.length a_df)
  /\
  (let cot_df := [mk_cot_row 0 (Num 40) 518400 1036800;
                  mk_cot_row 604800 NaN 1123200 1641600;
                  mk_cot_row 1209600 (Num 35) 1728000 2246400] in
   let s := filter_and_split_cot_shorts_around_median cot_df (Num 40) in
   (List.length (above_median_df s) + List.length (below_median_df s))%nat = 2%nat)
  /\
  (let g := [mk_row 1435831200 5 tt; mk_row 1435744800 7 tt] in
   exists before_date_df after_date_df,
     SplitByCutoffDate.split_dataframe_by_date g g "2015-07-02"
     = ok (before_date_df, after_date_df)
     /\ (List.length before_date_df + List.length after_date_df)%nat = List.length g).
Proof.
  destruct C1_threshold_splits_partition_comparable_rows as (H1 & H2 & H3).
  split; [|split].
  - intros a_df.
    exact (proj2 (proj2 (H1 unit a_df (Num 45) ltac:(discriminate)))).
  - intros cot_df.
    exact (proj2 (proj2 (proj2 (H2 cot_df (Num 40) ltac:(discriminate))))).
  - intros g.
    destruct (H3 unit g "2015-07-02"%string 16618 eq_refl) as (b & a & Hs & _ & _ & Hl).
    exists b, a. split; [exact Hs | exact Hl].
Defined.

(** ** The two copies of [resample_volume_by_minute] *)

Lemma select_Volume_names (O : Type) (df : DataFrame O) :
  map (@name unit) (select_Volume df) = map (@name O) df.
Proof. unfold select_Volume. rewrite map_map. reflexivity. Qed.

Lemma select_Volume_group (O : Type) (p : Timestamp -> bool) (df : DataFrame O) :
  map (@Volume unit) (filter (fun r => p (name r)) (select_Volume df))
  = map (@Volume O) (filter (fun r => p (name r)) df).
Proof.
  unfold select_Volume. rewrite filter_map_swap, map_map. reflexivity.
Qed.

Lemma resample_then_select (O : Type) (sum_other : list O -> O) (df : DataFrame O) :
  select_Volume (resample_1T_sum sum_other df)
  = select_Volume (resample_1T_sum (fun _ => tt) (select_Volume df)).
Proof.
  unfold resample_1T_sum.
  rewrite select_Volume_names.
  pose proof (select_Volume_group (O:=O)) as Hg.
  set (dfv := select_Volume df) in *.
  unfold select_Volume. rewrite !map_map.
  apply map_ext. intros b. cbn [name Volume]. f_equal.
  symmetry. f_equal. apply (Hg (fun t => floor_minute t =? b)).
Qed.

(** C7. On every dataframe with a datetime index and a [Volume] column,
    whatever its other columns, the [resample_volume_by_minute] of the
    cutoff-date notebook and the one of the days-to-expiration notebook
    return the same frame of summed volume per minute of the day. *)
Theorem C7_resample_volume_by_minute_copies_agree :
  forall (O : Type) (sum_other : list O -> O) (df : DataFrame O),
    SplitByCutoffDate.resample_volume_by_minute sum_other df
    = SplitByDaysToExpiration.resample_volume_by_minute df.
Proof.
  intros O sum_other df.
  unfold SplitByCutoffDate.resample_volume_by_minute,
         SplitByDaysToExpiration.resample_volume_by_minute.
  cbv zeta. rewrite (resample_then_select sum_other). reflexivity.
Qed.

(** ** Min-max normalisation *)

Section Normalisation.

Import Sklearn.





Lemma list_min_le (v0 : Z) (vs : list Z) :
  forall x, In x (v0 :: vs) -> list_min v0 vs <= x.
Proof.
  unfold list_min.
  induction vs as [|a vs IH]; cbn [fold_right]; intros x Hx.
  - destruct Hx as [<- | []]. lia.
  - pose proof (IH v0 (or_introl eq_refl)) as H0.
    destruct Hx as [<- | [<- | Hx]].
    + lia.
    + lia.
    + specialize (IH x (or_intror Hx)). lia.
Qed.

Lemma list_max_ge (v0 : Z) (vs : list Z) :
  forall x, In x (v0 :: vs) -> x <= list_max v0 vs.
Proof.
  unfold list_max.
  induction vs as [|a vs IH]; cbn [fold_right]; intros x Hx.
  - destruct Hx as [<- | []]. lia.
  - pose proof (IH v0 (or_introl eq_refl)) as H0.
    destruct Hx as [<- | [<- | Hx]].
    + lia.
    + lia.
    + specialize (IH x (or_intror Hx)). lia.
Qed.

Lemma list_min_In (v0 : Z) (vs : list Z) : In (list_min v0 vs) (v0 :: vs).
Proof.
  unfold list_min.
  induction vs as [|a vs IH]; cbn [fold_right]; [left; reflexivity|].
  destruct (Z.min_spec a (fold_right Z.min v0 vs)) as [[_ ->] | [_ ->]].
  - right; left; reflexivity.
  - destruct IH as [IH | IH]; [left; exact IH | right; right; exact IH].
Qed.

Lemma list_max_In (v0 : Z) (vs : list Z) : In (list_max v0 vs) (v0 :: vs).
Proof.
  unfold list_max.
  induction vs as [|a vs IH]; cbn [fold_right]; [left; reflexivity|].
  destruct (Z.max_spec a (fold_right Z.max v0 vs)) as [[_ ->] | [_ ->]].
  - destruct IH as [IH | IH]; [left; exact IH | right; right; exact IH].
  - right; left; reflexivity.
Qed.




End Normalisation.

Section NormalisationProperties.

Import Sklearn.





End NormalisationProperties.



(** ** Days to contract expiration *)

Section LastItem.

Import SplitByDaysToExpiration.

Context {A : Type}.






End LastItem.

Section SortFacts.

Import SplitByDaysToExpiration.

Lemma unique_In (l : list Z) (x : Z) : In x (unique l) <-> In x l.
Proof.
  induction l as [|a l IH]; cbn [unique]; [tauto|].
  cbn [In]. rewrite filter_In, IH.
  destruct (Z.eq_dec a x) as [-> | Hne].
  - tauto.
  - split.
    + intros [H | [H _]]; [left; exact H | right; exact H].
    + intros [H | H]; [left; exact H|].
      right. split; [exact H|].
      apply negb_true_iff. apply Z.eqb_neq. congruence.
Qed.







End SortFacts.

Section DaysToExpiration.

Import SplitByDaysToExpiration.

Variable O : Type.



End DaysToExpiration.




(** ** Errors and guards *)

Section Lookups.

Context {A B : Type}.

Lemma first_of_filter (p : A -> bool) (f : A -> B) (l : list A) :
  match filter p l with
  | [] => None
  | r :: _ => Some (f r)
  end = option_map f (find p l).
Proof.
  induction l as [|a l IH]; cbn [filter find]; [reflexivity|].
  destruct (p a); [reflexivity | exact IH].
Qed.

Lemma filter_filter (p q : A -> bool) (l : list A) :
  filter q (filter p l) = filter (fun r => p r && q r) l.
Proof.
  induction l as [|a l IH]; cbn [filter]; [reflexivity|].
  destruct (p a); cbn [filter andb]; [destruct (q a)|]; rewrite IH; reflexivity.
Qed.


End Lookups.

Section SettlementLookups.

Import SettlementCorrelation.

Lemma get_settlement_price_change_for_date_find (a_date : date)
    (a_settlement_df : list settlement_row) :
  get_settlement_price_change_for_date a_date a_settlement_df
  = ok (option_map Price_Difference_Open_And_Prior_Day_Settlement
          (find (fun r => date_of (settlement_Date r) =? a_date) a_settlement_df)).
Proof.
  unfold get_settlement_price_change_for_date.
  rewrite <- first_of_filter.
  destruct (filter _ a_settlement_df); reflexivity.
Qed.

Lemma get_intraday_price_change_at_minute_sixty_find (a_date : date)
    (intraday_df : list intraday_row) :
  get_intraday_price_change_at_minute_sixty a_date intraday_df
  = ok (option_map Price_Change_From_Intraday_Open
          (find (fun r => (date_of (DateTime r) =? a_date)
                          && (Open_Minutes_Offset r =? 59))
                intraday_df)).
Proof.
  unfold get_intraday_price_change_at_minute_sixty.
  rewrite <- first_of_filter, <- filter_filter.
  destruct (filter _ intraday_df) as [|r rows] eqn:E; [reflexivity|].
  destruct (filter _ (r :: rows)); reflexivity.
Qed.


End SettlementLookups.

Section MasterFrame.

Import SplitByDaysToExpiration.

Lemma add_dte_column_to_df_empty (O : Type) :
  add_dte_column_to_df (@nil (row O)) = error IndexError.
Proof. reflexivity. Qed.


End MasterFrame.

Import SettlementCorrelation.




(** ** Averages per minute of the day *)

Section KeyedFrames.

Context {A : Type}.





End KeyedFrames.

Section Sums.

Lemma sum_app (l1 l2 : list Z) : sum (l1 ++ l2) = sum l1 + sum l2.
Proof.
  unfold sum. induction l1 as [|a l IH]; cbn [app fold_right]; [reflexivity|].
  rewrite IH. lia.
Qed.

Lemma sum_map_add {A : Type} (f g : A -> Z) (l : list A) :
  sum (map (fun b => f b + g b) l) = sum (map f l) + sum (map g l).
Proof.
  unfold sum. induction l as [|a l IH]; cbn [map fold_right]; [reflexivity|].
  rewrite IH. lia.
Qed.

Lemma sum_map_zero {A : Type} (l : list A) : sum (map (fun _ => 0) l) = 0.
Proof.
  unfold sum. induction l as [|a l IH]; cbn [map fold_right]; [reflexivity|].
  rewrite IH. reflexivity.
Qed.

(** A value counted at the one bin it belongs to. *)
Lemma sum_indicator (P : Z -> bool) (x v : Z) (l : list Z) :
  NoDup l -> In x l ->
  sum (map (fun b => if x =? b then v else 0) (filter P l))
  = if P x then v else 0.
Proof.
  induction l as [|a l IH]; intros Hnd Hin; [destruct Hin|].
  inversion Hnd as [|a' l' Hna Hnd']; subst.
  assert (Hrest : ~ In x l ->
                  sum (map (fun b => if x =? b then v else 0) (filter P l)) = 0).
  { clear. intros Hn. induction l as [|b l IH]; [reflexivity|].
    cbn [filter].
    assert (x <> b) by (intros ->; apply Hn; left; reflexivity).
    assert (~ In x l) by (intros H'; apply Hn; right; exact H').
    destruct (P b); cbn [map]; [|apply IH; assumption].
    unfold sum in *. cbn [fold_right].
    destruct (Z.eqb_spec x b); [contradiction|]. rewrite IH by assumption.
    reflexivity. }
  cbn [filter]. destruct Hin as [-> | Hin].
  - destruct (P x); [|apply Hrest; exact Hna].
    cbn [map]. unfold sum in *. cbn [fold_right].
    rewrite Z.eqb_refl, (Hrest Hna). lia.
  - assert (x <> a) by (intros ->; contradiction).
    destruct (P a); [|apply IH; assumption].
    cbn [map]. unfold sum in *. cbn [fold_right].
    destruct (Z.eqb_spec x a); [contradiction|].
    rewrite IH by assumption. reflexivity.
Qed.

Variable O : Type.

(** Summing the bins selected by [P] counts each row once, at its bin. *)
Lemma sum_over_bins (P : Z -> bool) (f : row O -> Z) (bins : list Z)
    (df : DataFrame O) :
  NoDup bins ->
  (forall r, In r df -> In (f r) bins) ->
  sum (map (fun b => sum (map (@Volume O) (filter (fun r => f r =? b) df)))
           (filter P bins))
  = sum (map (@Volume O) (filter (fun r => P (f r)) df)).
Proof.
  intros Hnd. induction df as [|a df IH]; intros Hin.
  - cbn [filter map]. apply sum_map_zero.
  - assert (Hdf : forall r, In r df -> In (f r) bins)
      by (intros r Hr; apply Hin; right; exact Hr).
    specialize (IH Hdf).
    transitivity
      (sum (map (fun b => (if f a =? b then Volume a else 0)
                          + sum (map (@Volume O) (filter (fun r => f r =? b) df)))
                (filter P bins))).
    + f_equal. apply map_ext. intros b. cbn [filter].
      destruct (f a =? b); reflexivity.
    + rewrite sum_map_add, IH.
      rewrite (@sum_indicator P (f a) (Volume a) bins Hnd (Hin a (or_introl eq_refl))).
      cbn [filter]. destruct (P (f a)); reflexivity.
Qed.

End Sums.

Section Resampling.

Lemma insert_key_In (k y : Z) (l : list Z) :
  In y (insert_key k l) <-> y = k \/ In y l.
Proof.
  induction l as [|a l IH]; cbn [insert_key].
  - cbn [In]. split; intros [H | H]; auto.
  - destruct (k <? a); [cbn [In]; split; intros [H | H]; auto|].
    destruct (Z.eqb_spec k a) as [-> | Hne].
    + cbn [In]. split; [intros H; right; exact H|].
      intros [-> | H]; [left; reflexivity | exact H].
    + cbn [In]. rewrite IH. tauto.
Qed.

Lemma group_keys_In (y : Z) (l : list Z) : In y (group_keys l) <-> In y l.
Proof.
  unfold group_keys. induction l as [|a l IH]; cbn [fold_right]; [tauto|].
  rewrite insert_key_In, IH. cbn [In]. split; intros [H | H]; auto.
Qed.

Lemma bins_NoDup (index : list Timestamp) : NoDup (bins index).
Proof.
  destruct index as [|t ts]; cbn [bins]; [constructor|].
  apply Injective_map_NoDup; [|apply seq_NoDup].
  intros x y H. lia.
Qed.

Lemma bins_In (index : list Timestamp) (t : Timestamp) :
  In t index -> In (floor_minute t) (bins index).
Proof.
  destruct index as [|t0 ts]; intros Hin; [destruct Hin|].
  cbn [bins]. apply in_map_iff.
  pose proof (list_min_le Hin) as Hlo.
  pose proof (list_max_ge Hin) as Hhi.
  set (lo := list_min t0 ts) in *. set (hi := list_max t0 ts) in *.
  assert (H1 : lo / 60 <= t / 60) by (apply Z.div_le_mono; lia).
  assert (H2 : t / 60 <= hi / 60) by (apply Z.div_le_mono; lia).
  unfold floor_minute.
  assert (Hq : (60 * (hi / 60) - 60 * (lo / 60)) / 60 = hi / 60 - lo / 60).
  { replace (60 * (hi / 60) - 60 * (lo / 60)) with ((hi / 60 - lo / 60) * 60) by lia.
    apply Z.div_mul. lia. }
  exists (Z.to_nat (t / 60 - lo / 60)). split.
  - rewrite Z2Nat.id by lia. lia.
  - apply in_seq. rewrite Hq. lia.
Qed.

Variable O : Type.
Variable sum_other : list O -> O.

Lemma resample_volume_by_minute_keyed (df : DataFrame O) :
  SplitByCutoffDate.resample_volume_by_minute sum_other df
  = map (fun k => (k, segment_volume_at k df))
        (group_keys (map time_of (bins (map (@name O) df)))).
Proof.
  unfold SplitByCutoffDate.resample_volume_by_minute. cbv zeta.
  unfold groupby_time_sum. rewrite map_map.
  assert (Hnames : map (fun r : row unit => time_of (name r))
                       (select_Volume (resample_1T_sum sum_other df))
                   = map time_of (bins (map (@name O) df))).
  { unfold select_Volume, resample_1T_sum. rewrite !map_map. reflexivity. }
  rewrite Hnames. apply map_ext. intros k. f_equal.
  unfold select_Volume, resample_1T_sum. rewrite map_map. cbn [name Volume].
  rewrite filter_map_swap, map_map. cbn [name Volume].
  unfold segment_volume_at.
  apply (@sum_over_bins O (fun b => time_of b =? k)
                        (fun r : row O => floor_minute (name r))
                        (bins (map (@name O) df)) df
                        (bins_NoDup (map (@name O) df))).
  intros r Hr. apply bins_In. apply in_map. exact Hr.
Qed.



End Resampling.

Section Averages.

Import SplitByCutoffDate.

Variable O : Type.
Variable sum_other : list O -> O.




Lemma with_average_keys (by_minute_df : list (time * Z)) (n : Z) :
  map fst (with_average by_minute_df n) = map fst by_minute_df.
Proof.
  unfold with_average. rewrite map_map. apply map_ext. intros [k v]. reflexivity.
Qed.






End Averages.

Section NominalAverage.

Import SplitByCutoffDate.

Variable O : Type.
Variable sum_other : list O -> O.


End NominalAverage.



(** ** The shell scripts *)

Section ScriptFacts.

Import Scripts.
Local Open Scope string_scope.

Lemma substring_all (s : string) : substring 0 (String.length s) s = s.
Proof.
  induction s as [|c s IH]; cbn [String.length substring]; [reflexivity|].
  rewrite IH. reflexivity.
Qed.

Lemma substring_split (s : string) :
  forall k, (k <= String.length s)%nat ->
            s = substring 0 k s ++ substring k (String.length s - k) s.
Proof.
  induction s as [|c s IH]; intros k Hk.
  - cbn in Hk. assert (k = 0%nat) as -> by lia. reflexivity.
  - destruct k as [|k].
    + cbn [substring String.length Nat.sub append]. rewrite substring_all. reflexivity.
    + cbn [substring String.length Nat.sub append].
      cbn [String.length] in Hk. rewrite <- IH by lia. reflexivity.
Qed.

Lemma ends_with_strip (suffix s : string) :
  ends_with suffix s = true -> s = strip_suffix suffix s ++ suffix.
Proof.
  intros H. unfold strip_suffix. rewrite H.
  unfold ends_with in H. apply andb_true_iff in H. destruct H as [Hle Heq].
  apply Nat.leb_le in Hle. apply String.eqb_eq in Heq.
  pose proof (@substring_split s (String.length s - String.length suffix)%nat
                ltac:(lia)) as Hs.
  replace (String.length s - (String.length s - String.length suffix))%nat
    with (String.length suffix) in Hs by lia.
  rewrite Heq in Hs. exact Hs.
Qed.

Lemma insert_name_In (x y : string) (l : list string) :
  In y (insert_name x l) <-> y = x \/ In y l.
Proof.
  induction l as [|a l IH]; cbn [insert_name].
  - cbn [In]. split; intros [H | H]; auto.
  - destruct (String.leb x a); cbn [In]; [split; intros [H | H]; auto|].
    rewrite IH. tauto.
Qed.

Lemma glob_txt_In (cwd : directory) (file : string) :
  In file (glob_txt cwd)
  <-> In file (map fst cwd) /\ hidden file = false /\ ends_with ".txt" file = true.
Proof.
  unfold glob_txt.
  set (l := filter _ (map fst cwd)).
  assert (Hs : In file (fold_right insert_name [] l) <-> In file l).
  { induction l as [|a l' IH]; cbn [fold_right]; [tauto|].
    rewrite insert_name_In, IH. cbn [In]. split; intros [H | H]; auto. }
  rewrite Hs. unfold l. rewrite filter_In, andb_true_iff, negb_true_iff. tauto.
Qed.

Lemma read_line_append (s : string) :
  let (line, more) := read_line s in s = line ++ more.
Proof.
  induction s as [|c s IH]; cbn [read_line]; [reflexivity|].
  destruct (Ascii.eqb c "010"); [reflexivity|].
  destruct (read_line s) as [line more]. cbn [append]. rewrite <- IH. reflexivity.
Qed.

Lemma append_assoc (a b c : string) : (a ++ b) ++ c = a ++ (b ++ c).
Proof.
  induction a as [|x a IH]; cbn [append]; [reflexivity|].
  rewrite IH. reflexivity.
Qed.

Lemma gsed_1s_start_nonempty (replacement content : string) :
  content <> "" -> gsed_1s_start replacement content = replacement ++ content.
Proof.
  intros H. unfold gsed_1s_start.
  destruct content as [|c s]; [contradiction H; reflexivity|].
  pose proof (read_line_append (String c s)) as Hl.
  destruct (read_line (String c s)) as [line more].
  rewrite append_assoc, <- Hl. reflexivity.
Qed.

Lemma read_edit (f : string -> string) (path : list string) :
  forall cwd : directory, read path (edit f path cwd) = option_map f (read path cwd).
Proof.
  induction path as [|c rest IH]; intros cwd; [reflexivity|].
  destruct rest as [|c' rest'].
  - cbn [edit read]. induction cwd as [|[nm n] cwd IHc]; [reflexivity|].
    cbn [map List.find fst].
    destruct (String.eqb nm c) eqn:E.
    + destruct n; cbn [List.find fst]; rewrite E; reflexivity.
    + cbn [List.find fst]. rewrite E. exact IHc.
  - cbn [edit]. change (read (c :: c' :: rest') ?x)
      with (match List.find (fun e => String.eqb (fst e) c) x with
            | Some (_, File s) => None
            | Some (_, Dir es) => read (c' :: rest') es
            | None => None
            end).
    induction cwd as [|[nm n] cwd IHc]; [reflexivity|].
    cbn [map List.find fst].
    destruct (String.eqb nm c) eqn:E.
    + destruct n; cbn [List.find fst]; rewrite E; [reflexivity|].
      apply IH.
    + cbn [List.find fst]. rewrite E. exact IHc.
Qed.

End ScriptFacts.

Import Scripts.

(** C8. add_header.sh reaches below the current directory: [find .]
    descends, so the header also lands in a [.csv] file of a
    subdirectory, which the claim (and the script's own comment) leaves
    untouched. *)
Theorem C8_add_header_descends_into_subdirectories :
  let cwd := [("a.csv", File ("1,2" ++ newline));
              ("sub", Dir [("b.csv", File ("3,4" ++ newline))])]%string in
  find_csv cwd = ["./a.csv"; "./sub/b.csv"]%string
  /\ add_header cwd
     = [("a.csv", File (header ++ newline ++ "1,2" ++ newline));
        ("sub", Dir [("b.csv", File (header ++ newline ++ "3,4" ++ newline))])]%string
  /\ read ["sub"; "b.csv"]%string (add_header cwd)
     <> read ["sub"; "b.csv"]%string cwd.
Proof.
  split; [|split].
  - vm_compute. reflexivity.
  - vm_compute. reflexivity.
  - vm_compute. discriminate.
Qed.




(** * Further properties of the notebooks and scripts *)

(** ** Trading days *)

Section TradingDays.

Lemma unique_NoDup (l : list Z) : NoDup (unique l).
Proof.
  induction l as [|a l IH]; cbn [unique]; constructor.
  - intros H. apply filter_In in H. destruct H as [_ H].
    rewrite Z.eqb_refl in H. discriminate.
  - apply NoDup_filter. exact IH.
Qed.

Lemma filter_idle {A : Type} (p : A -> bool) (l : list A) :
  (forall x, In x l -> p x = true) -> filter p l = l.
Proof.
  induction l as [|a l IH]; intros H; cbn [filter]; [reflexivity|].
  rewrite (H a (or_introl eq_refl)). f_equal.
  apply IH. intros x Hx. apply H. right. exact Hx.
Qed.

Lemma filter_swap {A : Type} (p q : A -> bool) (l : list A) :
  filter p (filter q l) = filter q (filter p l).
Proof.
  induction l as [|a l IH]; cbn [filter]; [reflexivity|].
  destruct (q a) eqn:Eq; destruct (p a) eqn:Ep; cbn [filter];
    rewrite ?Eq, ?Ep, IH; reflexivity.
Qed.

Lemma unique_filter (p : Z -> bool) (l : list Z) :
  unique (filter p l) = filter p (unique l).
Proof.
  induction l as [|a l IH]; cbn [filter unique]; [reflexivity|].
  destruct (p a) eqn:Ep; cbn [unique filter].
  - rewrite ?Ep, IH. f_equal. apply filter_swap.
  - rewrite ?Ep, IH, filter_swap. symmetry. apply filter_idle.
    intros x Hx. apply filter_In in Hx. destruct Hx as [_ Hx].
    apply negb_true_iff. apply Z.eqb_neq. intros ->. congruence.
Qed.

Lemma map_filter_key {A : Type} (f : A -> Z) (p : Z -> bool) (l : list A) :
  map f (filter (fun r => p (f r)) l) = filter p (map f l).
Proof. symmetry. apply filter_map_swap. Qed.

(** The trading days of the rows whose day satisfies [p] are the trading
    days that satisfy [p]. *)
Lemma unique_days_filter {A : Type} (f : A -> Z) (p : Z -> bool) (l : list A) :
  unique (map f (filter (fun r => p (f r)) l)) = filter p (unique (map f l)).
Proof. rewrite map_filter_key. apply unique_filter. Qed.

End TradingDays.

(** X1. [get_unique_trading_days] lists every day on which the frame has a
    row, and lists it once; the copies of the two notebooks agree. *)
Theorem X1_unique_trading_days_once_each :
  forall (O : Type) (df : DataFrame O),
    NoDup (SplitByCutoffDate.get_unique_trading_days df)
    /\ (forall d : date,
           In d (SplitByCutoffDate.get_unique_trading_days df)
           <-> exists r, In r df /\ date_of (name r) = d)
    /\ SplitByDaysToExpiration.get_unique_trading_days df
       = SplitByCutoffDate.get_unique_trading_days df.
Proof.
  intros O df. split; [|split].
  - apply unique_NoDup.
  - intros d. unfold SplitByCutoffDate.get_unique_trading_days.
    rewrite unique_In, in_map_iff.
    split; intros (r & H1 & H2); exists r; auto.
  - reflexivity.
Qed.

(** X2. With a date that parses, the two outputs of
    [split_dataframe_by_date] hold the rows dated before the split date and
    the rows dated on or after it; no trading day is on both sides, and the
    trading-day counts of the two sides add up to the count of the master
    frame. *)
Theorem X2_split_by_date_separates_trading_days :
  forall (O : Type) (master_ungrouped_df df : DataFrame O)
         (split_date : string) (d : date),
    strptime_ymd split_date = ok d ->
    exists before_date_df after_date_df,
      SplitByCutoffDate.split_dataframe_by_date master_ungrouped_df df split_date
      = ok (before_date_df, after_date_df)
      /\ (forall r, In r before_date_df <->
                    In r master_ungrouped_df /\ date_of (name r) < d)
      /\ (forall r, In r after_date_df <->
                    In r master_ungrouped_df /\ d <= date_of (name r))
      /\ (forall day,
             In day (SplitByCutoffDate.get_unique_trading_days before_date_df) ->
             In day (SplitByCutoffDate.get_unique_trading_days after_date_df) ->
             False)
      /\ (List.length (SplitByCutoffDate.get_unique_trading_days before_date_df)
          + List.length (SplitByCutoffDate.get_unique_trading_days after_date_df))%nat
         = List.length (SplitByCutoffDate.get_unique_trading_days master_ungrouped_df).
Proof.
  intros O g df split_date d Hd.
  exists (filter (fun r => date_of (name r) <? d) g).
  exists (filter (fun r => d <=? date_of (name r)) g).
  assert (Hc : forall x : Z, (d <=? x) = negb (x <? d)).
  { intros x. destruct (Z.leb_spec d x); destruct (Z.ltb_spec x d);
      try reflexivity; lia. }
  split; [apply split_dataframe_by_date_ok; exact Hd|].
  split; [|split].
  - intros r. rewrite filter_In, Z.ltb_lt. tauto.
  - intros r. rewrite filter_In, Z.leb_le. tauto.
  - unfold SplitByCutoffDate.get_unique_trading_days.
    rewrite (unique_days_filter (fun r : row O => date_of (name r)) (fun x => x <? d)).
    rewrite (unique_days_filter (fun r : row O => date_of (name r)) (fun x => d <=? x)).
    split.
    + intros day. apply filter_complement_disjoint.
      intros y _ Hy. rewrite Hc, Hy. reflexivity.
    + apply filter_complement_length. intros x _. apply Hc.
Qed.

Lemma X2_witness :
  exists before_date_df after_date_df,
    SplitByCutoffDate.split_dataframe_by_date
      [mk_row 1435744800 7 tt; mk_row 1435831200 5 tt; mk_row 1435834800 1 tt]
      [] "2015-07-02"
    = ok (before_date_df, after_date_df)
    /\ (List.length (SplitByCutoffDate.get_unique_trading_days before_date_df)
        + List.length (SplitByCutoffDate.get_unique_trading_days after_date_df))%nat
       = 2%nat.
Proof.
  destruct (@X2_split_by_date_separates_trading_days unit
              [mk_row 1435744800 7 tt; mk_row 1435831200 5 tt; mk_row 1435834800 1 tt]
              [] "2015-07-02"%string 16618 eq_refl)
    as (b & a & Hs & _ & _ & _ & Hl).
  exists b, a. split; [exact Hs | exact Hl].
Defined.

(** ** The by-minute frame *)

Section ByMinute.

Lemma insert_key_ascending (k : Z) (l : list Z) :
  ascending l -> ascending (insert_key k l).
Proof.
  induction l as [|a l IH]; cbn [insert_key ascending].
  - intros _. split; [intros y []|exact I].
  - intros [Ha Hl]. destruct (Z.ltb_spec k a).
    + cbn [ascending]. split; [|split; assumption].
      intros y [<- | Hy]; [assumption|]. specialize (Ha y Hy). lia.
    + destruct (Z.eqb_spec k a) as [-> | Hne].
      * cbn [ascending]. split; assumption.
      * cbn [ascending]. split; [|apply IH; exact Hl].
        intros y Hy. apply insert_key_In in Hy.
        destruct Hy as [-> | Hy]; [lia | apply Ha; exact Hy].
Qed.

Lemma group_keys_ascending (l : list Z) : ascending (group_keys l).
Proof.
  unfold group_keys. induction l as [|a l IH]; cbn [fold_right]; [exact I|].
  apply insert_key_ascending. exact IH.
Qed.

Lemma ascending_NoDup (l : list Z) : ascending l -> NoDup l.
Proof.
  induction l as [|a l IH]; intros H; constructor; destruct H as [Ha Hl].
  - intros Hin. specialize (Ha a Hin). lia.
  - apply IH. exact Hl.
Qed.

Lemma bins_on_the_minute (index : list Timestamp) (b : Timestamp) :
  In b (bins index) -> b mod 60 = 0.
Proof.
  destruct index as [|t ts]; cbn [bins]; [intros []|].
  intros H. apply in_map_iff in H. destruct H as (k & <- & _).
  unfold floor_minute.
  replace (60 * (list_min t ts / 60) + 60 * Z.of_nat k)
    with ((list_min t ts / 60 + Z.of_nat k) * 60) by lia.
  apply Z.mod_mul. lia.
Qed.

Lemma time_of_on_the_minute (b : Timestamp) :
  b mod 60 = 0 -> 0 <= time_of b < 86400 /\ time_of b mod 60 = 0.
Proof.
  intros H. unfold time_of, seconds_per_day.
  pose proof (Z.mod_pos_bound b 86400 ltac:(lia)) as Hb.
  split; [exact Hb|].
  pose proof (Z.div_mod b 86400 ltac:(lia)) as Hd.
  pose proof (Z.div_mod b 60 ltac:(lia)) as Hd60.
  pose proof (Z.div_mod (b mod 86400) 60 ltac:(lia)) as Hm.
  pose proof (Z.mod_pos_bound (b mod 86400) 60 ltac:(lia)) as Hmb.
  lia.
Qed.

Variable O : Type.
Variable sum_other : list O -> O.

Lemma resample_keys_on_the_minute (df : DataFrame O) (k : time) :
  In k (map fst (SplitByCutoffDate.resample_volume_by_minute sum_other df)) ->
  0 <= k < 86400 /\ k mod 60 = 0.
Proof.
  rewrite resample_volume_by_minute_keyed, map_map. cbn [fst]. rewrite map_id.
  intros H. apply (proj1 (group_keys_In _ _)) in H. apply in_map_iff in H.
  destruct H as (b & <- & Hb).
  apply time_of_on_the_minute. apply (bins_on_the_minute _ _ Hb).
Qed.

Lemma resample_conserves_volume (df : DataFrame O) :
  sum (map snd (SplitByCutoffDate.resample_volume_by_minute sum_other df))
  = sum (map (@Volume O) df).
Proof.
  rewrite resample_volume_by_minute_keyed, map_map. cbn [snd].
  set (keys := group_keys (map time_of (bins (map (@name O) df)))).
  pose proof (@sum_over_bins O (fun _ => true)
                (fun r => time_of (floor_minute (name r))) keys df
                (ascending_NoDup _ (group_keys_ascending _))) as H.
  rewrite !filter_true in H. unfold segment_volume_at. apply H.
  intros r Hr. unfold keys. apply group_keys_In. apply in_map.
  apply bins_In. apply in_map. exact Hr.
Qed.

End ByMinute.

(** X3. The frame [resample_volume_by_minute] returns has one row per
    minute of the day, in strictly ascending order and on whole minutes, and
    its totals add up to the total volume of the input: no volume is lost
    or counted twice.  An empty frame gives an empty frame. *)
Theorem X3_resample_by_minute_conserves_volume :
  forall (O : Type) (sum_other : list O -> O) (df : DataFrame O),
    let by_minute := SplitByCutoffDate.resample_volume_by_minute sum_other df in
    ascending (map fst by_minute)
    /\ (forall k, In k (map fst by_minute) -> 0 <= k < 86400 /\ k mod 60 = 0)
    /\ sum (map snd by_minute) = sum (map (@Volume O) df)
    /\ (df = [] <-> by_minute = []).
Proof.
  intros O sum_other df by_minute. unfold by_minute.
  split; [|split; [|split]].
  - rewrite resample_volume_by_minute_keyed, map_map. cbn [fst]. rewrite map_id.
    apply group_keys_ascending.
  - intros k. apply resample_keys_on_the_minute.
  - apply resample_conserves_volume.
  - split.
    + intros ->. reflexivity.
    + intros H. destruct df as [|r df]; [reflexivity|]. exfalso.
      assert (Hin : In (time_of (floor_minute (name r)))
                       (map fst (SplitByCutoffDate.resample_volume_by_minute
                                   sum_other (r :: df)))).
      { rewrite resample_volume_by_minute_keyed, map_map. cbn [fst]. rewrite map_id.
        apply group_keys_In. apply in_map. apply bins_In. left. reflexivity. }
      rewrite H in Hin. destruct Hin.
Qed.

Section RowOrder.

Variable O : Type.
Variable sum_other : list O -> O.

Lemma list_min_unique (x y : Z) (l l' : list Z) :
  (forall z, In z (x :: l) <-> In z (y :: l')) -> list_min x l = list_min y l'.
Proof.
  intros H. apply Z.le_antisymm.
  - apply list_min_le. apply H. apply list_min_In.
  - apply list_min_le. apply H. apply list_min_In.
Qed.

Lemma list_max_unique (x y : Z) (l l' : list Z) :
  (forall z, In z (x :: l) <-> In z (y :: l')) -> list_max x l = list_max y l'.
Proof.
  intros H. apply Z.le_antisymm.
  - apply list_max_ge. apply H. apply list_max_In.
  - apply list_max_ge. apply H. apply list_max_In.
Qed.

Lemma bins_same_members (index index' : list Timestamp) :
  (forall z, In z index <-> In z index') -> bins index = bins index'.
Proof.
  intros H. destruct index as [|t ts]; destruct index' as [|t' ts'].
  - reflexivity.
  - exfalso. apply (H t'). left. reflexivity.
  - exfalso. apply (H t). left. reflexivity.
  - cbn [bins]. rewrite (list_min_unique H), (list_max_unique H). reflexivity.
Qed.

Lemma group_sum_Permutation (p : row O -> bool) (df df' : DataFrame O) :
  Permutation df df' ->
  sum (map (@Volume O) (filter p df)) = sum (map (@Volume O) (filter p df')).
Proof.
  unfold sum. induction 1 as [|a l l' Hp IH|a b l|l l' l'' H1 IH1 H2 IH2].
  - reflexivity.
  - cbn [filter]. destruct (p a); cbn [map fold_right]; rewrite IH; reflexivity.
  - cbn [filter]. destruct (p a); destruct (p b); cbn [map fold_right]; lia.
  - rewrite IH1. exact IH2.
Qed.

Lemma resample_Permutation (df df' : DataFrame O) :
  Permutation df df' ->
  SplitByCutoffDate.resample_volume_by_minute sum_other df
  = SplitByCutoffDate.resample_volume_by_minute sum_other df'.
Proof.
  intros Hp. rewrite !resample_volume_by_minute_keyed.
  assert (Hb : bins (map (@name O) df) = bins (map (@name O) df')).
  { apply bins_same_members. intros z.
    split; apply Permutation_in; apply Permutation_map;
      [exact Hp | symmetry; exact Hp]. }
  rewrite Hb. apply map_ext. intros k. f_equal.
  unfold segment_volume_at. apply group_sum_Permutation. exact Hp.
Qed.

End RowOrder.

(** X4. [resample_volume_by_minute] does not depend on the order of the
    rows: two frames with the same rows in any order give the same
    by-minute frame, and so does sorting the frame first. *)
Theorem X4_resample_by_minute_ignores_row_order :
  forall (O : Type) (sum_other : list O -> O) (df df' : DataFrame O),
    Permutation df df' ->
    SplitByCutoffDate.resample_volume_by_minute sum_other df
    = SplitByCutoffDate.resample_volume_by_minute sum_other df'
    /\ SplitByDaysToExpiration.resample_volume_by_minute df
       = SplitByDaysToExpiration.resample_volume_by_minute df'.
Proof.
  intros O sum_other df df' Hp.
  pose proof (resample_Permutation sum_other Hp) as H.
  split; [exact H|].
  pose proof (resample_then_select sum_other df) as H1.
  pose proof (resample_then_select sum_other df') as H2.
  unfold SplitByCutoffDate.resample_volume_by_minute in H.
  unfold SplitByDaysToExpiration.resample_volume_by_minute.
  cbv zeta in *. rewrite <- H1, <- H2. exact H.
Qed.

Lemma X4_witness :
  SplitByCutoffDate.resample_volume_by_minute (fun _ : list unit => tt)
    [mk_row 120 3 tt; mk_row 0 5 tt; mk_row 61 2 tt]
  = SplitByCutoffDate.resample_volume_by_minute (fun _ : list unit => tt)
      [mk_row 0 5 tt; mk_row 61 2 tt; mk_row 120 3 tt].
Proof.
  exact (proj1 (@X4_resample_by_minute_ignores_row_order unit (fun _ => tt)
                  [mk_row 120 3 tt; mk_row 0 5 tt; mk_row 61 2 tt]
                  [mk_row 0 5 tt; mk_row 61 2 tt; mk_row 120 3 tt]
                  (Permutation_cons_append
                     [mk_row 0 5 tt; mk_row 61 2 tt] (mk_row 120 3 tt)))).
Defined.

(** ** The master frame of nominal averages *)

Section MasterNominal.

Import SplitByCutoffDate.

Lemma initialize_df_grouped_by_minute_In (m : time) :
  In m initialize_df_grouped_by_minute <-> 0 <= m < 86400 /\ m mod 60 = 0.
Proof.
  unfold initialize_df_grouped_by_minute. rewrite in_map_iff. split.
  - intros (k & <- & Hk). apply in_seq in Hk. split; [lia|].
    rewrite Z.mul_comm. apply Z.mod_mul. lia.
  - intros [Hr Hm]. exists (Z.to_nat (m / 60)).
    pose proof (Z.div_mod m 60 ltac:(lia)) as Hd.
    assert (0 <= m / 60 < 1440).
    { split; [apply Z.div_pos; lia | apply Z.div_lt_upper_bound; lia]. }
    split; [rewrite Z2Nat.id by lia; lia | apply in_seq; lia].
Qed.

Lemma union_index_absorb (a b : list time) :
  (forall k, In k b -> In k a) -> union_index a b = a.
Proof.
  intros H. unfold union_index.
  assert (E : filter (fun k => negb (existsb (Z.eqb k) a)) b = []).
  { induction b as [|x b IH]; [reflexivity|]. cbn [filter].
    assert (Hx : existsb (Z.eqb x) a = true).
    { apply existsb_exists. exists x. split; [|apply Z.eqb_refl].
      apply H. left. reflexivity. }
    rewrite Hx. cbn [negb]. apply IH. intros k Hk. apply H. right. exact Hk. }
  rewrite E. apply app_nil_r.
Qed.

End MasterNominal.

(** X5. The master frame of nominal averages always has exactly the 1440
    minutes of the day as its rows, in order from 00:00 to 23:59, whatever
    the two sides hold; a side without rows leaves its columns missing in
    every row. *)
Theorem X5_master_nominal_frame_has_the_1440_minutes :
  forall (O : Type) (sum_other : list O -> O) (before_date_df after_date_df : DataFrame O),
    let master := SplitByCutoffDate.master_avg_daily_nominal_df
                    sum_other before_date_df after_date_df in
    map fst master = map (fun k => 60 * Z.of_nat k) (seq 0 1440)
    /\ List.length master = 1440%nat
    /\ (before_date_df = [] -> forall cells, In cells master -> fst (snd cells) = None)
    /\ (after_date_df = [] -> forall cells, In cells master -> snd (snd cells) = None).
Proof.
  intros O sum_other before after master.
  assert (Hidx : map fst master = SplitByCutoffDate.initialize_df_grouped_by_minute).
  { unfold master, SplitByCutoffDate.master_avg_daily_nominal_df,
           SplitByCutoffDate.get_master_avg_daily_nominal_df. cbv zeta.
    rewrite map_map. cbn [fst]. rewrite map_id, !with_average_keys.
    rewrite (union_index_absorb SplitByCutoffDate.initialize_df_grouped_by_minute).
    - apply union_index_absorb. intros k Hk.
      apply initialize_df_grouped_by_minute_In.
      apply (resample_keys_on_the_minute sum_other after k Hk).
    - intros k Hk. apply initialize_df_grouped_by_minute_In.
      apply (resample_keys_on_the_minute sum_other before k Hk). }
  split; [exact Hidx|]. split; [|split].
  - rewrite <- (length_map fst), Hidx.
    unfold SplitByCutoffDate.initialize_df_grouped_by_minute.
    rewrite length_map. apply length_seq.
  - intros -> cells Hin.
    unfold master, SplitByCutoffDate.master_avg_daily_nominal_df,
           SplitByCutoffDate.get_master_avg_daily_nominal_df in Hin.
    cbv zeta in Hin. apply in_map_iff in Hin. destruct Hin as (k & <- & _).
    reflexivity.
  - intros -> cells Hin.
    unfold master, SplitByCutoffDate.master_avg_daily_nominal_df,
           SplitByCutoffDate.get_master_avg_daily_nominal_df in Hin.
    cbv zeta in Hin. apply in_map_iff in Hin. destruct Hin as (k & <- & _).
    reflexivity.
Qed.

(** ** Normalisation at the edges *)

Section NormalisationEdges.

Import Sklearn.




End NormalisationEdges.


Lemma X5_witness :
  let master := SplitByCutoffDate.master_avg_daily_nominal_df
                  (fun _ : list unit => tt) [] [mk_row 86400 7 tt] in
  List.length master = 1440%nat
  /\ (forall cells, In cells master -> fst (snd cells) = None).
Proof.
  intros master.
  destruct (@X5_master_nominal_frame_has_the_1440_minutes unit (fun _ => tt)
              [] [mk_row 86400 7 tt]) as (_ & Hl & Hb & _).
  split; [exact Hl | exact (Hb eq_refl)].
Defined.


(** ** The frame of intraday-normalized volumes *)

Section NormalizedFrame.

Import SplitByCutoffDate.

Variable O : Type.





End NormalizedFrame.



(** ** The days-to-expiration column and the master frame *)




Section LoadingContracts.

Context {A B : Type}.

Lemma mapM_ok_Forall2 (g : A -> Except B) (l : list A) (out : list B) :
  mapM g l = ok out <-> Forall2 (fun x y => g x = ok y) l out.
Proof.
  revert out. induction l as [|a l IH]; intros out; cbn [mapM].
  - split.
    + intros H. injection H as <-. constructor.
    + intros H. inversion H. reflexivity.
  - split.
    + destruct (g a) as [b|e] eqn:Ea; [|discriminate].
      destruct (mapM g l) as [bs|e] eqn:El; [|discriminate].
      intros H. injection H as <-. constructor; [exact Ea | apply IH; reflexivity].
    + intros H. inversion H as [|x y l' out' Hxy Hrest]; subst.
      rewrite Hxy. apply IH in Hrest. rewrite Hrest. reflexivity.
Qed.


End LoadingContracts.


Lemma get_master_from (store : SplitByCutoffDate.csv_store) (files : list string) :
  forall initial_df,
    SplitByCutoffDate.get_master_ungrouped_data_frame_from store initial_df files
    = (frames <- mapM (SplitByCutoffDate.convert_csv_to_df store) files ;;
       ok (initial_df ++ List.concat frames)).
Proof.
  induction files as [|f files IH]; intros acc.
  - cbn. rewrite app_nil_r. reflexivity.
  - cbn [SplitByCutoffDate.get_master_ungrouped_data_frame_from mapM].
    destruct (SplitByCutoffDate.convert_csv_to_df store f) as [raw|e];
      [|reflexivity].
    cbn [Py.bind]. rewrite IH.
    destruct (mapM (SplitByCutoffDate.convert_csv_to_df store) files)
      as [frames|e]; [|reflexivity].
    cbn [Py.bind List.concat].
    unfold SplitByCutoffDate.combine_data_frames.
    rewrite app_assoc. reflexivity.
Qed.

Lemma mapM_some_error {A B : Type} (g : A -> Except B) (l : list A) (x : A) (e : exn) :
  (forall y e', g y = error e' -> e' = e) ->
  In x l -> is_error (g x) = true ->
  mapM g l = error e.
Proof.
  intros Honly. induction l as [|a l IH]; intros Hin Hx; [destruct Hin|].
  cbn [mapM]. destruct (g a) as [b|e'] eqn:Ea.
  - destruct Hin as [-> | Hin]; [rewrite Ea in Hx; discriminate|].
    rewrite (IH Hin Hx). reflexivity.
  - rewrite (Honly a e' Ea). reflexivity.
Qed.

(** X9. In the cutoff-date notebook [get_master_ungrouped_data_frame]
    returns the frames of the files one after the other in the order of
    the file list, so the master frame has as many rows as the files
    together; as soon as one file of the list does not exist the whole call
    fails with a [FileNotFoundError]. *)
Theorem X9_master_frame_is_the_files_in_order :
  forall (store : SplitByCutoffDate.csv_store) (files_to_process : list string),
    (forall frames,
        Forall2 (fun file frame => store file = Some frame) files_to_process frames ->
        SplitByCutoffDate.get_master_ungrouped_data_frame store files_to_process
        = ok (List.concat frames))
    /\ (forall file,
           In file files_to_process -> store file = None ->
           SplitByCutoffDate.get_master_ungrouped_data_frame store files_to_process
           = error FileNotFoundError).
Proof.
  intros store files.
  unfold SplitByCutoffDate.get_master_ungrouped_data_frame.
  rewrite get_master_from. split.
  - intros frames H.
    assert (Hm : mapM (SplitByCutoffDate.convert_csv_to_df store) files = ok frames).
    { apply mapM_ok_Forall2. eapply Forall2_impl; [|exact H].
      intros f fr Hf. unfold SplitByCutoffDate.convert_csv_to_df. rewrite Hf.
      reflexivity. }
    rewrite Hm. reflexivity.
  - intros file Hin Hnone.
    rewrite (@mapM_some_error _ _ (SplitByCutoffDate.convert_csv_to_df store)
               files file FileNotFoundError).
    + reflexivity.
    + intros y e'. unfold SplitByCutoffDate.convert_csv_to_df.
      destruct (store y); [discriminate|]. intros H. injection H as <-. reflexivity.
    + exact Hin.
    + unfold SplitByCutoffDate.convert_csv_to_df. rewrite Hnone. reflexivity.
Qed.

Lemma X9_witness :
  SplitByCutoffDate.get_master_ungrouped_data_frame
    (fun f => if String.eqb f "LEQ15.csv" then Some [mk_row 60 5 tt]
              else if String.eqb f "LEV15.csv" then Some [mk_row 0 1 tt]
              else None)
    ["LEQ15.csv"; "LEV15.csv"]%string
  = ok [mk_row 60 5 tt; mk_row 0 1 tt]
  /\ SplitByCutoffDate.get_master_ungrouped_data_frame
       (fun f => if String.eqb f "LEQ15.csv" then Some [mk_row 60 5 tt] else None)
       ["LEQ15.csv"; "LEZ15.csv"]%string
     = error FileNotFoundError.
Proof.
  split.
  - apply (proj1 (X9_master_frame_is_the_files_in_order _ _)
                 [[mk_row 60 5 tt]; [mk_row 0 1 tt]]).
    repeat constructor.
  - apply (proj2 (X9_master_frame_is_the_files_in_order _ _) "LEZ15.csv"%string).
    + right. left. reflexivity.
    + reflexivity.
Defined.




(** ** The settlement notebook *)

Section PricesForDates.

Import SettlementCorrelation.

Lemma existsb_find {A : Type} (p : A -> bool) (l : list A) :
  existsb p l = match find p l with Some _ => true | None => false end.
Proof.
  induction l as [|a l IH]; cbn [existsb find]; [reflexivity|].
  destruct (p a); [reflexivity | exact IH].
Qed.

End PricesForDates.

(** X11. The loop that pairs the settlement gap with the price change at
    minute 59 never fails and keeps the dates in their order: its rows are
    exactly the dates for which the settlement frame has a row and the
    intraday frame has a minute-59 bar, each with the symbol and with the
    two values the lookups return for that date. *)
Theorem X11_prices_for_dates_keeps_the_dates_with_both_values :
  forall (a_symbol : string) (unique_dates : list date)
         (settlement : list settlement_row) (intraday : list intraday_row),
    exists rows,
      prices_for_dates a_symbol unique_dates settlement intraday = ok rows
      /\ map prices_Date rows
         = filter (fun d =>
                     existsb (fun r => date_of (settlement_Date r) =? d) settlement
                     && existsb (fun r => (date_of (DateTime r) =? d)
                                          && (Open_Minutes_Offset r =? 59))
                                intraday)
                  unique_dates
      /\ Forall (fun row =>
                   prices_Symbol row = a_symbol
                   /\ get_settlement_price_change_for_date (prices_Date row) settlement
                      = ok (Some (prices_settlement_price_diff row))
                   /\ get_intraday_price_change_at_minute_sixty (prices_Date row) intraday
                      = ok (Some (CFO_At_Open_t_60 row)))
                rows.
Proof.
  intros sym dates settlement intraday.
  induction dates as [|d ds IH].
  - exists []. repeat split. constructor.
  - destruct IH as (tail & Ht & Hd & Hf).
    cbn [prices_for_dates filter]. rewrite Ht.
    pose proof (get_settlement_price_change_for_date_find d settlement) as Hs.
    pose proof (get_intraday_price_change_at_minute_sixty_find d intraday) as Hi.
    rewrite !existsb_find.
    rewrite Hs, Hi. cbn [Py.bind].
    destruct (find (fun r => date_of (settlement_Date r) =? d) settlement) as [rs|];
      destruct (find (fun r => (date_of (DateTime r) =? d)
                               && (Open_Minutes_Offset r =? 59)) intraday) as [ri|];
      cbn [option_map andb] in *.
    + eexists. split; [reflexivity|]. cbn [map prices_Date]. split; [f_equal; exact Hd|].
      constructor; [|exact Hf]. cbn. auto.
    + exists tail. auto.
    + exists tail. auto.
    + exists tail. auto.
Qed.

(** ** Days with and without an open bar *)

Section OpenBars.

Import MissingOpenBars.

Lemma existsb_filter {A : Type} (p q : A -> bool) (l : list A) :
  existsb q (filter p l) = existsb (fun r => p r && q r) l.
Proof.
  induction l as [|a l IH]; cbn [filter existsb]; [reflexivity|].
  destruct (p a); cbn [existsb andb]; rewrite IH; reflexivity.
Qed.

Lemma has_open_bar_other_day (contract_df : list enriched_row) (a_date d : date) :
  d <> a_date ->
  has_open_bar (filter (fun r => negb (date_of (DateTime r) =? a_date)) contract_df) d
  = has_open_bar contract_df d.
Proof.
  intros Hne. unfold has_open_bar. rewrite existsb_filter.
  induction contract_df as [|r l IH]; cbn [existsb]; [reflexivity|].
  rewrite IH. f_equal.
  destruct (Z.eqb_spec (date_of (DateTime r)) d) as [-> | Hd]; cbn [andb].
  - destruct (Z.eqb_spec d a_date); [contradiction | reflexivity].
  - rewrite andb_false_r. reflexivity.
Qed.

Lemma existsb_eqb_cons (x a : Z) (l : list Z) :
  existsb (Z.eqb x) (a :: l) = (x =? a) || existsb (Z.eqb x) l.
Proof. reflexivity. Qed.

Lemma missing_open_loop_spec (unique_dates : list date) :
  forall contract_df,
    filter_rows_where_day_is_missing_open_loop unique_dates contract_df
    = filter (fun r => negb (existsb (Z.eqb (date_of (DateTime r))) unique_dates)
                       || has_open_bar contract_df (date_of (DateTime r)))
             contract_df.
Proof.
  induction unique_dates as [|a rest IH]; intros cur.
  - cbn [filter_rows_where_day_is_missing_open_loop existsb negb orb].
    symmetry. apply filter_idle. reflexivity.
  - cbn [filter_rows_where_day_is_missing_open_loop]. rewrite existsb_filter.
    fold (has_open_bar cur a).
    destruct (has_open_bar cur a) eqn:Ha; cbn [negb].
    + rewrite IH. apply filter_ext. intros r. rewrite existsb_eqb_cons.
      destruct (Z.eqb_spec (date_of (DateTime r)) a) as [-> | Hne]; cbn [orb negb].
      * rewrite Ha, orb_true_r. reflexivity.
      * reflexivity.
    + rewrite IH, filter_filter. apply filter_ext. intros r.
      rewrite existsb_eqb_cons.
      destruct (Z.eqb_spec (date_of (DateTime r)) a) as [-> | Hne]; cbn [orb negb andb].
      * rewrite Ha. reflexivity.
      * rewrite has_open_bar_other_day by exact Hne. reflexivity.
Qed.

Lemma contains_open_loop_spec (unique_dates : list date) :
  forall contract_df,
    filter_rows_where_day_contains_open_loop unique_dates contract_df
    = filter (fun r => negb (existsb (Z.eqb (date_of (DateTime r))) unique_dates)
                       || negb (has_open_bar contract_df (date_of (DateTime r))))
             contract_df.
Proof.
  induction unique_dates as [|a rest IH]; intros cur.
  - cbn [filter_rows_where_day_contains_open_loop existsb negb orb].
    symmetry. apply filter_idle. reflexivity.
  - cbn [filter_rows_where_day_contains_open_loop]. rewrite existsb_filter.
    fold (has_open_bar cur a).
    destruct (has_open_bar cur a) eqn:Ha.
    + rewrite IH, filter_filter. apply filter_ext. intros r.
      rewrite existsb_eqb_cons.
      destruct (Z.eqb_spec (date_of (DateTime r)) a) as [-> | Hne]; cbn [orb negb andb].
      * rewrite Ha. reflexivity.
      * rewrite has_open_bar_other_day by exact Hne. reflexivity.
    + rewrite IH. apply filter_ext. intros r. rewrite existsb_eqb_cons.
      destruct (Z.eqb_spec (date_of (DateTime r)) a) as [-> | Hne]; cbn [orb negb].
      * rewrite Ha, orb_true_r. reflexivity.
      * reflexivity.
Qed.

Lemma row_day_listed (contract_df : list enriched_row) (r : enriched_row) :
  In r contract_df ->
  existsb (Z.eqb (date_of (DateTime r)))
          (unique (map (fun r => date_of (DateTime r)) contract_df)) = true.
Proof.
  intros H. apply existsb_exists. exists (date_of (DateTime r)).
  split; [|apply Z.eqb_refl]. apply unique_In.
  apply (in_map (fun r => date_of (DateTime r))). exact H.
Qed.

Lemma filter_rows_where_day_is_missing_open_spec (contract_df : list enriched_row) :
  filter_rows_where_day_is_missing_open contract_df
  = filter (fun r => has_open_bar contract_df (date_of (DateTime r))) contract_df.
Proof.
  unfold filter_rows_where_day_is_missing_open. cbv zeta.
  rewrite missing_open_loop_spec. apply filter_ext_in. intros r Hr.
  rewrite (row_day_listed _ _ Hr). reflexivity.
Qed.

Lemma filter_rows_where_day_contains_open_spec (contract_df : list enriched_row) :
  filter_rows_where_day_contains_open contract_df
  = filter (fun r => negb (has_open_bar contract_df (date_of (DateTime r))))
           contract_df.
Proof.
  unfold filter_rows_where_day_contains_open. cbv zeta.
  rewrite contains_open_loop_spec. apply filter_ext_in. intros r Hr.
  rewrite (row_day_listed _ _ Hr). reflexivity.
Qed.

End OpenBars.

(** X12. Of the two day filters of the missing-open-bars notebook,
    [filter_rows_where_day_is_missing_open] returns, in order, the rows
    of the days that have a bar at minute offset 0 (it removes the days
    that miss it), and [filter_rows_where_day_contains_open] returns the
    rows of the days that have none; every row of the frame is in exactly
    one of the two results. *)
Theorem X12_open_bar_filters_partition_the_rows :
  forall contract_df : list MissingOpenBars.enriched_row,
    MissingOpenBars.filter_rows_where_day_is_missing_open contract_df
    = filter (fun r => has_open_bar contract_df (date_of (MissingOpenBars.DateTime r)))
             contract_df
    /\ MissingOpenBars.filter_rows_where_day_contains_open contract_df
       = filter (fun r => negb (has_open_bar contract_df
                                  (date_of (MissingOpenBars.DateTime r))))
                contract_df
    /\ Permutation
         (MissingOpenBars.filter_rows_where_day_is_missing_open contract_df
          ++ MissingOpenBars.filter_rows_where_day_contains_open contract_df)
         contract_df
    /\ (forall r,
           In r (MissingOpenBars.filter_rows_where_day_is_missing_open contract_df) ->
           In r (MissingOpenBars.filter_rows_where_day_contains_open contract_df) ->
           False).
Proof.
  intros df.
  rewrite filter_rows_where_day_is_missing_open_spec,
          filter_rows_where_day_contains_open_spec.
  split; [reflexivity|]. split; [reflexivity|]. split.
  - apply filter_complement_permutation. reflexivity.
  - intros r. apply filter_complement_disjoint.
    intros y _ Hy. rewrite Hy. reflexivity.
Qed.

(** X13. For the rows of one contract, the number of days without an open
    bar and the number of days with one, as
    [calculate_num_unique_dates_for_contract] counts them on the two
    filtered frames, add up to the number of trading days of the
    contract. *)
Theorem X13_days_with_and_without_open_bar_add_up :
  forall (contract_df : list MissingOpenBars.enriched_row) (symbol : string),
    (forall r, In r contract_df -> MissingOpenBars.Symbol r = symbol) ->
    (MissingOpenBars.calculate_num_unique_dates_for_contract
       (MissingOpenBars.filter_rows_where_day_contains_open contract_df) symbol
     + MissingOpenBars.calculate_num_unique_dates_for_contract
         (MissingOpenBars.filter_rows_where_day_is_missing_open contract_df) symbol)%nat
    = List.length (unique (map MissingOpenBars.Date contract_df)).
Proof.
  intros df symbol Hsym.
  rewrite filter_rows_where_day_is_missing_open_spec,
          filter_rows_where_day_contains_open_spec.
  unfold MissingOpenBars.calculate_num_unique_dates_for_contract. cbv zeta.
  assert (Hs : forall l : list MissingOpenBars.enriched_row,
             incl l df ->
             filter (fun r => String.eqb (MissingOpenBars.Symbol r) symbol) l = l).
  { intros l Hl. apply filter_idle. intros r Hr.
    apply String.eqb_eq. apply Hsym. apply Hl. exact Hr. }
  rewrite !Hs by (intros r Hr; apply filter_In in Hr; apply Hr).
  unfold MissingOpenBars.Date.
  rewrite (unique_days_filter (fun r => date_of (MissingOpenBars.DateTime r))
             (fun d => negb (has_open_bar df d))).
  rewrite (unique_days_filter (fun r => date_of (MissingOpenBars.DateTime r))
             (fun d => has_open_bar df d)).
  rewrite Nat.add_comm. apply filter_complement_length. reflexivity.
Qed.

Lemma X13_witness :
  let contract_df :=
    [MissingOpenBars.mk_enriched_row "LEQ15" 0 0 30;
     MissingOpenBars.mk_enriched_row "LEQ15" 60 1 30;
     MissingOpenBars.mk_enriched_row "LEQ15" 86460 1 29]%string in
  (MissingOpenBars.calculate_num_unique_dates_for_contract
     (MissingOpenBars.filter_rows_where_day_contains_open contract_df) "LEQ15"
   + MissingOpenBars.calculate_num_unique_dates_for_contract
       (MissingOpenBars.filter_rows_where_day_is_missing_open contract_df) "LEQ15")%nat
  = 2%nat.
Proof.
  intros contract_df.
  apply (@X13_days_with_and_without_open_bar_add_up contract_df "LEQ15"%string).
  intros r [<- | [<- | [<- | []]]]; reflexivity.
Defined.

(** ** Intraday bars and the report of the week before *)

Section TuesdayJoin.

Import CotShortInterest.



Variable O : Type.




End TuesdayJoin.



(** X15. The apply ranges of reports one week apart tile the calendar:
    each range spans seven days, and every day lies in the apply range of
    exactly one of the reports dated a whole number of weeks from a given
    report. *)
Theorem X15_weekly_apply_ranges_tile_the_calendar :
  forall (R t : Timestamp),
    date_of (calc_end_cot_apply_date_range R)
    - date_of (calc_begin_cot_apply_date_range R) = 6
    /\ exists k : Z,
         (date_of (calc_begin_cot_apply_date_range (R + timedelta_days (7 * k)))
          <= date_of t
          <= date_of (calc_end_cot_apply_date_range (R + timedelta_days (7 * k))))
         /\ forall k' : Z,
              date_of (calc_begin_cot_apply_date_range (R + timedelta_days (7 * k')))
              <= date_of t
              <= date_of (calc_end_cot_apply_date_range (R + timedelta_days (7 * k'))) ->
              k' = k.
Proof.
  intros R t.
  unfold calc_begin_cot_apply_date_range, calc_end_cot_apply_date_range.
  split; [rewrite !date_of_shift; lia|].
  exists ((date_of t - date_of R - 6) / 7).
  pose proof (Z.div_mod (date_of t - date_of R - 6) 7 ltac:(lia)) as Hdm.
  pose proof (Z.mod_pos_bound (date_of t - date_of R - 6) 7 ltac:(lia)) as Hb.
  split.
  - rewrite !date_of_shift. lia.
  - intros k'. rewrite !date_of_shift. lia.
Qed.

Lemma X15_witness :
  exists k : Z,
    date_of (calc_begin_cot_apply_date_range (1435622400 + timedelta_days (7 * k)))
    <= date_of 1436347800
    <= date_of (calc_end_cot_apply_date_range (1435622400 + timedelta_days (7 * k)))
    /\ k = 0.
Proof.
  destruct (X15_weekly_apply_ranges_tile_the_calendar 1435622400 1436347800)
    as (_ & k & Hk & Huniq).
  exists k. split; [exact Hk|]. symmetry. apply Huniq.
  split; apply Z.leb_le; reflexivity.
Defined.

(** ** More on the scripts *)

Section RenameFacts.

Import Scripts.
Local Open Scope string_scope.

Lemma str_length_append (a b : string) :
  String.length (a ++ b) = (String.length a + String.length b)%nat.
Proof.
  induction a as [|c a IH]; cbn [append String.length]; [reflexivity|].
  rewrite IH. reflexivity.
Qed.

Lemma append_inv_tail (a b t : string) : a ++ t = b ++ t -> a = b.
Proof.
  revert b. induction a as [|c a IH]; intros [|d b] H; cbn [append] in H.
  - reflexivity.
  - exfalso. apply (f_equal String.length) in H.
    cbn [String.length] in H. rewrite str_length_append in H. lia.
  - exfalso. apply (f_equal String.length) in H.
    cbn [String.length] in H. rewrite str_length_append in H. lia.
  - injection H as -> H. f_equal. apply IH. exact H.
Qed.

Lemma substring_append_tail (a t : string) :
  substring (String.length a) (String.length t) (a ++ t) = t.
Proof.
  induction a as [|c a IH]; cbn [append String.length substring].
  - apply substring_all.
  - exact IH.
Qed.

Lemma ends_with_append (a t : string) : ends_with t (a ++ t) = true.
Proof.
  unfold ends_with. rewrite str_length_append. apply andb_true_iff. split.
  - apply Nat.leb_le. lia.
  - replace (String.length a + String.length t - String.length t)%nat
      with (String.length a) by lia.
    rewrite substring_append_tail. apply String.eqb_refl.
Qed.

Lemma insert_name_NoDup (x : string) (l : list string) :
  NoDup l -> ~ In x l -> NoDup (insert_name x l).
Proof.
  induction l as [|a l IH]; intros Hnd Hx; cbn [insert_name].
  - constructor; [intros []|constructor].
  - destruct (String.leb x a); [constructor; assumption|].
    inversion Hnd as [|a' l' Ha Hl]; subst. constructor.
    + intros H. apply insert_name_In in H. destruct H as [-> | H].
      * apply Hx. left. reflexivity.
      * contradiction.
    + apply IH; [exact Hl|]. intros H. apply Hx. right. exact H.
Qed.

Lemma glob_txt_NoDup (cwd : directory) : NoDup (map fst cwd) -> NoDup (glob_txt cwd).
Proof.
  intros H. unfold glob_txt.
  assert (Hf : NoDup (filter (fun nm => negb (hidden nm) && ends_with ".txt" nm)
                             (map fst cwd))) by (apply NoDup_filter; exact H).
  set (l := filter _ (map fst cwd)) in *. clearbody l.
  induction l as [|a l IH]; cbn [fold_right]; [constructor|].
  inversion Hf as [|a' l' Ha Hl]; subst.
  apply insert_name_NoDup; [apply IH; exact Hl|].
  intros Hin. apply Ha. clear - Hin.
  induction l as [|b l IH]; cbn [fold_right] in Hin; [destruct Hin|].
  apply insert_name_In in Hin. destruct Hin as [-> | Hin];
    [left; reflexivity | right; apply IH; exact Hin].
Qed.

End RenameFacts.

(** X16. The renames of the rename script do not collide: in a directory
    (whose entries have distinct names) no name is renamed twice and no two
    names are given the same target; every target ends in [.csv] and so is
    matched by the glob [*.txt] no more. *)
Theorem X16_renames_do_not_collide :
  forall cwd : directory,
    NoDup (map fst cwd) ->
    NoDup (map fst (rename_txt_to_csv cwd))
    /\ NoDup (map snd (rename_txt_to_csv cwd))
    /\ forall source target,
         In (source, target) (rename_txt_to_csv cwd) ->
         ends_with ".csv" target = true /\ ends_with ".txt" target = false.
Proof.
  intros cwd Hnd. unfold rename_txt_to_csv. rewrite !map_map. cbn [fst snd].
  rewrite map_id. pose proof (glob_txt_NoDup cwd Hnd) as Hg.
  split; [exact Hg|]. split.
  - apply Injective_map_NoDup_in; [|exact Hg].
    intros x y Hx Hy Heq.
    apply glob_txt_In in Hx. apply glob_txt_In in Hy.
    destruct Hx as (_ & _ & Hx). destruct Hy as (_ & _ & Hy).
    apply append_inv_tail in Heq.
    rewrite (ends_with_strip _ _ Hx), (ends_with_strip _ _ Hy), Heq. reflexivity.
  - intros source target Hin. apply in_map_iff in Hin.
    destruct Hin as (file & Heq & _). injection Heq as _ <-.
    pose proof (ends_with_append (strip_suffix ".txt" file) ".csv") as Hc.
    split; [exact Hc|].
    unfold ends_with in *. apply andb_true_iff in Hc. destruct Hc as [Hlen Hsub].
    apply String.eqb_eq in Hsub.
    change (String.length ".txt") with (String.length ".csv").
    rewrite Hlen, Hsub. reflexivity.
Qed.

Lemma X16_witness :
  NoDup (map snd (rename_txt_to_csv
                    [("b.txt", File "2"); ("notes", File ""); ("a.txt", File "1")]%string)).
Proof.
  apply (X16_renames_do_not_collide
           [("b.txt", File "2"); ("notes", File ""); ("a.txt", File "1")]%string).
  repeat constructor; cbn; intuition discriminate.
Defined.

(** X17. The header step is not idempotent: applied twice to the same
    non-empty file it leaves two header lines before the original content;
    nothing in the script looks for a header that is already there. *)
Theorem X17_header_added_again_on_a_second_run :
  forall (file : string) (path : list string) (cwd : directory) (content : string),
    components file = Some path ->
    read path cwd = Some content ->
    content <> ""%string ->
    read path (gsed_in_place file (gsed_in_place file cwd))
    = Some ((header ++ newline) ++ (header ++ newline) ++ content)%string.
Proof.
  intros file path cwd content Hc Hr Hne.
  unfold gsed_in_place. rewrite Hc, !read_edit, Hr. cbn [option_map].
  rewrite (gsed_1s_start_nonempty _ Hne).
  rewrite gsed_1s_start_nonempty; [reflexivity|].
  discriminate.
Qed.

Lemma X17_witness :
  read ["a.csv"]%string
       (gsed_in_place "./a.csv" (gsed_in_place "./a.csv" [("a.csv", File "1,2")]%string))
  = Some ((header ++ newline) ++ (header ++ newline) ++ "1,2")%string.
Proof.
  apply (@X17_header_added_again_on_a_second_run
           "./a.csv"%string ["a.csv"]%string [("a.csv", File "1,2")]%string "1,2"%string).
  - reflexivity.
  - reflexivity.
  - discriminate.
Defined.

(** ** add_header.sh on a whole tree *)

Section Words.

Import Scripts.
Local Open Scope string_scope.

Lemma append_nil_r (s : string) : s ++ "" = s.
Proof. induction s as [|c s IH]; cbn [append]; [reflexivity | rewrite IH; reflexivity]. Qed.

Lemma free_of_append (sep : ascii -> bool) (a b : string) :
  free_of sep (a ++ b) = free_of sep a && free_of sep b.
Proof.
  induction a as [|c a IH]; cbn [append free_of]; [reflexivity|].
  rewrite IH. apply andb_assoc.
Qed.

Lemma free_of_weaken (sep sep' : ascii -> bool) (s : string) :
  (forall c, sep' c = true -> sep c = true) ->
  free_of sep s = true -> free_of sep' s = true.
Proof.
  intros H. induction s as [|c s IH]; cbn [free_of]; [reflexivity|].
  intros Hs. apply andb_true_iff in Hs. destruct Hs as [Hc Hs].
  apply andb_true_iff. split; [|apply IH; exact Hs].
  apply negb_true_iff. apply negb_true_iff in Hc.
  destruct (sep' c) eqn:E; [|reflexivity]. rewrite (H c E) in Hc. discriminate.
Qed.

Lemma split_on_free (sep : ascii -> bool) (w : string) :
  free_of sep w = true ->
  forall acc rest, split_on sep acc (w ++ rest) = split_on sep (acc ++ w) rest.
Proof.
  induction w as [|c w IH]; intros Hw acc rest.
  - cbn [append]. rewrite append_nil_r. reflexivity.
  - cbn [free_of] in Hw. apply andb_true_iff in Hw. destruct Hw as [Hc Hw].
    apply negb_true_iff in Hc. cbn [append split_on]. rewrite Hc.
    rewrite (IH Hw). rewrite append_assoc. reflexivity.
Qed.

Lemma split_on_word (sep : ascii -> bool) (w acc : string) :
  free_of sep w = true -> split_on sep acc w = [acc ++ w].
Proof.
  intros Hw. rewrite <- (append_nil_r w) at 1.
  rewrite (split_on_free sep w Hw). reflexivity.
Qed.

(** Splitting the output of [find] at white space gives back its lines
    when no line holds white space. *)
Lemma command_substitution_lines (ws : list string) :
  (forall w, In w ws -> free_of is_IFS w = true /\ w <> "") ->
  command_substitution ws = ws.
Proof.
  unfold command_substitution.
  induction ws as [|x ws IH]; intros H; [reflexivity|].
  destruct (H x (or_introl eq_refl)) as [Hx Hne].
  assert (Hnx : nonempty x = true).
  { unfold nonempty. apply negb_true_iff. apply String.eqb_neq. exact Hne. }
  destruct ws as [|y ws].
  - cbn [String.concat]. rewrite (split_on_word is_IFS x "" Hx).
    cbn [append filter]. rewrite Hnx. reflexivity.
  - change (String.concat newline (x :: y :: ws))
      with (x ++ newline ++ String.concat newline (y :: ws)).
    rewrite (split_on_free is_IFS x Hx). cbn [append].
    unfold newline at 1. cbn [append split_on].
    change (is_IFS "010") with true. cbn iota. cbn [filter]. rewrite Hnx.
    f_equal. apply IH. intros w Hw. apply H. right. exact Hw.
Qed.

Lemma render_tail (path : list string) : render path = "." ++ path_tail path.
Proof.
  unfold render.
  assert (H : forall acc, fold_left (fun s c => s ++ "/" ++ c) path acc
                          = acc ++ path_tail path).
  { induction path as [|c q IH]; intros acc; cbn [fold_left path_tail].
    - symmetry. apply append_nil_r.
    - rewrite IH. rewrite !append_assoc. reflexivity. }
  apply H.
Qed.

Lemma render_app (pre q : list string) :
  render (pre ++ q) = fold_left (fun s c => s ++ "/" ++ c) q (render pre).
Proof. unfold render. apply fold_left_app. Qed.

Lemma plain_name_parts (nm : string) :
  plain_name nm = true ->
  nm <> "" /\ nm <> "." /\ nm <> ".."
  /\ free_of (Ascii.eqb "/") nm = true /\ free_of is_IFS nm = true.
Proof.
  unfold plain_name, nonempty. intros H.
  apply andb_true_iff in H. destruct H as [H Hfree].
  apply andb_true_iff in H. destruct H as [H Hdd].
  apply andb_true_iff in H. destruct H as [Hne Hd].
  apply negb_true_iff in Hne, Hd, Hdd.
  apply String.eqb_neq in Hne, Hd, Hdd.
  repeat split; try assumption.
  - apply (free_of_weaken _ _ _ (fun c Hc => proj2 (orb_true_iff _ _) (or_introl Hc)) Hfree).
  - apply (free_of_weaken _ _ _ (fun c Hc => proj2 (orb_true_iff _ _) (or_intror Hc)) Hfree).
Qed.

Lemma split_path_tail (path : list string) :
  Forall (fun c => plain_name c = true) path ->
  forall acc, split_on (Ascii.eqb "/") acc (path_tail path) = acc :: path.
Proof.
  induction path as [|c q IH]; intros Hp acc; [reflexivity|].
  inversion Hp as [|c' q' Hc Hq]; subst.
  destruct (plain_name_parts c Hc) as (_ & _ & _ & Hslash & _).
  cbn [path_tail append split_on]. change (Ascii.eqb "/" "/") with true. cbn iota.
  rewrite (split_on_free (Ascii.eqb "/") c Hslash). cbn [append].
  rewrite (IH Hq). reflexivity.
Qed.

Lemma components_render (path : list string) :
  Forall (fun c => plain_name c = true) path ->
  components (render path) = Some path.
Proof.
  intros Hp. rewrite render_tail. unfold components.
  change ("." ++ path_tail path) with (String "." (path_tail path)).
  cbn [split_on]. change (Ascii.eqb "/" ".") with false. cbn iota. cbn [append].
  rewrite (split_path_tail Hp).
  assert (Hdd : existsb (String.eqb "..") ("." :: path) = false).
  { cbn [existsb]. change (String.eqb ".." ".") with false. cbn [orb].
    clear - Hp. induction Hp as [|c q Hc Hq IH]; [reflexivity|].
    cbn [existsb]. rewrite IH, orb_false_r.
    destruct (plain_name_parts c Hc) as (_ & _ & Hdd & _).
    apply String.eqb_neq. congruence. }
  rewrite Hdd. f_equal. cbn [filter]. change (String.eqb "." ".") with true.
  unfold nonempty at 1. cbn [negb andb].
  apply filter_idle. intros c Hc.
  rewrite Forall_forall in Hp.
  destruct (plain_name_parts c (Hp c Hc)) as (Hne & Hd & _).
  unfold nonempty. apply andb_true_iff. split; apply negb_true_iff;
    apply String.eqb_neq; assumption.
Qed.

Lemma render_free_of_IFS (path : list string) :
  Forall (fun c => plain_name c = true) path ->
  free_of is_IFS (render path) = true /\ render path <> "".
Proof.
  intros Hp. rewrite render_tail. split; [|discriminate].
  rewrite free_of_append. apply andb_true_iff. split; [reflexivity|].
  induction Hp as [|c q Hc Hq IH]; [reflexivity|].
  cbn [path_tail]. rewrite !free_of_append, IH.
  destruct (plain_name_parts c Hc) as (_ & _ & _ & _ & Hifs). rewrite Hifs.
  reflexivity.
Qed.

End Words.

Section Trees.

Import Scripts.
Local Open Scope string_scope.

Lemma node_induction (P : node -> Prop) :
  (forall s, P (File s)) ->
  (forall es, Forall (fun e => P (snd e)) es -> P (Dir es)) ->
  forall n, P n.
Proof.
  intros Hf Hd. fix IH 1. intros [s | es].
  - apply Hf.
  - apply Hd. induction es as [|[nm c] es IHes]; constructor.
    + apply IH.
    + exact IHes.
Qed.

Lemma csv_paths_cons (nm : string) (child : node) (es : directory) :
  csv_paths ((nm, child) :: es)
  = ((if ends_with ".csv" nm then [[nm]] else [])
     ++ map (cons nm) (csv_paths_node child) ++ csv_paths es)%list.
Proof. reflexivity. Qed.

Lemma map_csv_cons (f : string -> string) (nm : string) (child : node) (es : directory) :
  map_csv f ((nm, child) :: es)
  = (nm, match child with
         | File s => File (if ends_with ".csv" nm then f s else s)
         | Dir d => Dir (map_csv f d)
         end) :: map_csv f es.
Proof. destruct child; reflexivity. Qed.

Lemma tidy_cons (nm : string) (child : node) (es : directory) :
  tidy ((nm, child) :: es)
  <-> ~ In nm (map fst es) /\ plain_name nm = true /\ tidy_node child /\ tidy es.
Proof.
  unfold tidy. cbn [tidy_node map fst]. split.
  - intros (Hnd & Hp & Hc & Hw). inversion Hnd as [|x l Hx Hl]; subst. tauto.
  - intros (Hx & Hp & Hc & Hl & Hw). split; [constructor; assumption | tauto].
Qed.

(** [find] prints the rendered paths of the entries named [*.csv]. *)
Lemma find_csv_at_paths (n : node) :
  forall (pre : list string) (nm : string),
    find_csv_at (render (pre ++ [nm])) nm n
    = ((if ends_with ".csv" nm then [render (pre ++ [nm])] else [])
       ++ map (fun q => render ((pre ++ [nm]) ++ q)) (csv_paths_node n))%list.
Proof.
  induction n as [s | es IH] using node_induction; intros pre nm.
  - cbn [find_csv_at csv_paths_node map]. reflexivity.
  - cbn [find_csv_at]. f_equal.
    change (csv_paths_node (Dir es)) with (csv_paths es).
    set (here := (pre ++ [nm])%list).
    induction es as [|[nm' child] es IHes]; [reflexivity|].
    inversion IH as [|e l Hc Hl]; subst. cbn [snd] in Hc.
    rewrite csv_paths_cons, !map_app, map_map.
    assert (Hr : render here ++ "/" ++ nm' = render (here ++ [nm'])%list).
    { rewrite render_app. reflexivity. }
    rewrite Hr, (Hc here nm'), (IHes Hl).
    rewrite <- !app_assoc. f_equal.
    + destruct (ends_with ".csv" nm'); reflexivity.
    + f_equal. apply map_ext. intros q. rewrite <- app_assoc. reflexivity.
Qed.

Lemma find_csv_paths (cwd : directory) :
  find_csv cwd = map render (csv_paths cwd).
Proof.
  unfold find_csv. cbn [find_csv_at].
  change (ends_with ".csv" ".") with false. cbn iota. cbn [app].
  change "." with (render []) at 1.
  induction cwd as [|[nm child] es IH]; [reflexivity|].
  rewrite csv_paths_cons, !map_app, map_map.
  assert (Hr : render [] ++ "/" ++ nm = render ([] ++ [nm])%list) by reflexivity.
  rewrite Hr, (find_csv_at_paths child [] nm), IH.
  rewrite <- !app_assoc. f_equal.
  destruct (ends_with ".csv" nm); reflexivity.
Qed.

Lemma csv_paths_plain (n : node) :
  tidy_node n ->
  forall p, In p (csv_paths_node n) -> Forall (fun c => plain_name c = true) p.
Proof.
  induction n as [s | es IH] using node_induction; [intros _ p []|].
  change (csv_paths_node (Dir es)) with (csv_paths es).
  change (tidy_node (Dir es)) with (tidy es).
  induction es as [|[nm child] es IHes]; [intros _ p []|].
  inversion IH as [|e l Hc Hl]; subst. cbn [snd] in Hc.
  intros Ht p Hp. apply tidy_cons in Ht. destruct Ht as (_ & Hnm & Hchild & Hes).
  rewrite csv_paths_cons in Hp. apply in_app_or in Hp.
  destruct Hp as [Hp | Hp]; [|apply in_app_or in Hp; destruct Hp as [Hp | Hp]].
  - destruct (ends_with ".csv" nm); [|destruct Hp].
    destruct Hp as [<- | []]. constructor; [exact Hnm | constructor].
  - apply in_map_iff in Hp. destruct Hp as (q & <- & Hq).
    constructor; [exact Hnm | apply (Hc Hchild q Hq)].
  - apply (IHes Hl Hes p Hp).
Qed.

Lemma csv_paths_start (es : directory) (p : list string) :
  In p (csv_paths es) -> exists c q, p = c :: q /\ In c (map fst es).
Proof.
  induction es as [|[nm child] es IH]; [intros []|].
  rewrite csv_paths_cons. intros Hp. apply in_app_or in Hp.
  destruct Hp as [Hp | Hp]; [|apply in_app_or in Hp; destruct Hp as [Hp | Hp]].
  - destruct (ends_with ".csv" nm); [|destruct Hp].
    destruct Hp as [<- | []]. exists nm, []. split; [reflexivity | left; reflexivity].
  - apply in_map_iff in Hp. destruct Hp as (q & <- & _).
    exists nm, q. split; [reflexivity | left; reflexivity].
  - destruct (IH Hp) as (c & q & -> & Hc). exists c, q.
    split; [reflexivity | right; exact Hc].
Qed.

End Trees.

Section Edits.

Import Scripts.
Local Open Scope string_scope.

Variable f : string -> string.

Lemma edit_cons (c : string) (q : list string) (es : directory) :
  edit f (c :: q) es
  = map (fun '(nm, n) => if String.eqb nm c then (nm, edit_node f q n) else (nm, n)) es.
Proof.
  destruct q as [|c' q']; cbn [edit]; apply map_ext; intros [nm n];
    destruct (String.eqb nm c); destruct n; reflexivity.
Qed.

Lemma edit_absent (c : string) (q : list string) (es : directory) :
  ~ In c (map fst es) -> edit f (c :: q) es = es.
Proof.
  intros H. rewrite edit_cons. rewrite <- (map_id es) at 2.
  apply map_ext_in. intros [nm n] Hin.
  destruct (String.eqb_spec nm c) as [-> | Hne]; [|reflexivity].
  exfalso. apply H. apply (in_map fst) in Hin. exact Hin.
Qed.

Lemma edit_head (nm : string) (q : list string) (n : node) (es : directory) :
  ~ In nm (map fst es) ->
  edit f (nm :: q) ((nm, n) :: es) = (nm, edit_node f q n) :: es.
Proof.
  intros H. pose proof (edit_absent nm q es H) as Ha.
  rewrite edit_cons in *. cbn [map]. rewrite String.eqb_refl, Ha. reflexivity.
Qed.

Lemma edit_skip (c nm : string) (q : list string) (n : node) (es : directory) :
  c <> nm ->
  edit f (c :: q) ((nm, n) :: es) = (nm, n) :: edit f (c :: q) es.
Proof.
  intros H. rewrite !edit_cons. cbn [map].
  destruct (String.eqb_spec nm c) as [-> | Hne]; [contradiction H; reflexivity|].
  reflexivity.
Qed.

(** The edits of [paths] one after the other, as the loop runs them. *)
Lemma edits_below_head (nm : string) (n : node) (es : directory)
    (paths : list (list string)) :
  ~ In nm (map fst es) ->
  fold_left (fun fs p => edit f p fs) (map (cons nm) paths) ((nm, n) :: es)
  = (nm, fold_left (fun n q => edit_node f q n) paths n) :: es.
Proof.
  intros H. revert n. induction paths as [|q paths IH]; intros n; [reflexivity|].
  cbn [map fold_left]. rewrite edit_head by exact H. apply IH.
Qed.

Lemma edits_in_directory (d : directory) (paths : list (list string)) :
  (forall q, In q paths -> q <> []) ->
  fold_left (fun n q => edit_node f q n) paths (Dir d)
  = Dir (fold_left (fun fs q => edit f q fs) paths d).
Proof.
  revert d. induction paths as [|q paths IH]; intros d H; [reflexivity|].
  cbn [fold_left].
  destruct q as [|c q']; [exfalso; apply (H [] (or_introl eq_refl)); reflexivity|].
  cbn [edit_node]. apply IH. intros q Hq. apply H. right. exact Hq.
Qed.

Lemma edits_past_head (nm : string) (n : node) (es : directory)
    (paths : list (list string)) :
  (forall p, In p paths -> exists c q, p = c :: q /\ c <> nm) ->
  fold_left (fun fs p => edit f p fs) paths ((nm, n) :: es)
  = (nm, n) :: fold_left (fun fs p => edit f p fs) paths es.
Proof.
  revert es. induction paths as [|p paths IH]; intros es H; [reflexivity|].
  cbn [fold_left].
  destruct (H p (or_introl eq_refl)) as (c & q & -> & Hne).
  rewrite edit_skip by exact Hne. apply IH.
  intros p Hp. apply H. right. exact Hp.
Qed.

(** Editing every entry named [*.csv] of a tidy tree, in the order [find]
    lists them, changes the regular files among them and nothing else. *)
Lemma edits_of_csv_paths (n : node) :
  tidy_node n ->
  match n with
  | File _ => True
  | Dir es => fold_left (fun fs p => edit f p fs) (csv_paths es) es = map_csv f es
  end.
Proof.
  induction n as [s | es IH] using node_induction; [intros _; exact I|].
  change (tidy_node (Dir es)) with (tidy es).
  induction es as [|[nm child] es IHes]; [intros _; reflexivity|].
  inversion IH as [|e l Hc Hl]; subst. cbn [snd] in Hc.
  intros Ht. apply tidy_cons in Ht. destruct Ht as (Hfresh & _ & Hchild & Hes).
  rewrite csv_paths_cons, !fold_left_app, map_csv_cons.
  assert (Hfirst : fold_left (fun fs p => edit f p fs)
                     (if ends_with ".csv" nm then [[nm]] else [])
                     ((nm, child) :: es)
                   = (nm, if ends_with ".csv" nm then edit_node f [] child else child)
                     :: es).
  { destruct (ends_with ".csv" nm); [|reflexivity].
    cbn [fold_left]. apply edit_head. exact Hfresh. }
  rewrite Hfirst, edits_below_head by exact Hfresh.
  rewrite edits_past_head.
  - rewrite (IHes Hl Hes). f_equal. f_equal.
    destruct child as [s | d].
    + cbn [csv_paths_node fold_left]. destruct (ends_with ".csv" nm); reflexivity.
    + assert (Hd : (if ends_with ".csv" nm then edit_node f [] (Dir d) else Dir d)
                   = Dir d) by (destruct (ends_with ".csv" nm); reflexivity).
      rewrite Hd. change (csv_paths_node (Dir d)) with (csv_paths d).
      rewrite edits_in_directory.
      * f_equal. apply (Hc Hchild).
      * intros q Hq. destruct (csv_paths_start d q Hq) as (c & q' & -> & _).
        discriminate.
  - intros p Hp. destruct (csv_paths_start es p Hp) as (c & q & -> & Hin).
    exists c, q. split; [reflexivity|]. intros ->. contradiction.
Qed.

Lemma read_map_csv (path : list string) :
  forall (es : directory) (nm : string),
    read path (map_csv f es)
    = option_map (fun s => if ends_with ".csv" (last path nm) then f s else s)
                 (read path es).
Proof.
  induction path as [|c rest IH]; intros es nm; [reflexivity|].
  induction es as [|[nm' child] es IHes]; [reflexivity|].
  rewrite map_csv_cons. cbn [read List.find fst].
  destruct (String.eqb_spec nm' c) as [-> | Hne].
  - destruct child as [s | d].
    + destruct rest as [|c' rest']; [reflexivity|reflexivity].
    + destruct rest as [|c' rest'].
      * cbn [read]. reflexivity.
      * rewrite (IH d nm). reflexivity.
  - cbn [read List.find fst] in IHes. exact IHes.
Qed.

End Edits.

Section HeaderLoop.

Import Scripts.
Local Open Scope string_scope.

Lemma gsed_in_place_render (path : list string) (fs : directory) :
  Forall (fun c => plain_name c = true) path ->
  gsed_in_place (render path) fs = edit (gsed_1s_start (header ++ newline)) path fs.
Proof.
  intros Hp. unfold gsed_in_place. rewrite (components_render Hp). reflexivity.
Qed.

Lemma gsed_loop_over_paths (paths : list (list string)) :
  Forall (Forall (fun c => plain_name c = true)) paths ->
  forall fs : directory,
    fold_left (fun fs file => gsed_in_place file fs) (map render paths) fs
    = fold_left (fun fs p => edit (gsed_1s_start (header ++ newline)) p fs) paths fs.
Proof.
  induction 1 as [|p paths Hp Hps IH]; intros fs; [reflexivity|].
  cbn [map fold_left]. rewrite (gsed_in_place_render fs Hp). apply IH.
Qed.

Lemma add_header_over_paths (cwd : directory) :
  tidy cwd ->
  add_header cwd
  = fold_left (fun fs p => edit (gsed_1s_start (header ++ newline)) p fs)
              (csv_paths cwd) cwd.
Proof.
  intros Ht. unfold add_header. rewrite find_csv_paths.
  assert (Hplain : Forall (Forall (fun c => plain_name c = true)) (csv_paths cwd)).
  { apply Forall_forall. intros p Hp. exact (@csv_paths_plain (Dir cwd) Ht p Hp). }
  rewrite command_substitution_lines.
  - apply gsed_loop_over_paths. exact Hplain.
  - intros w Hw. apply in_map_iff in Hw. destruct Hw as (p & <- & Hp).
    apply render_free_of_IFS. rewrite Forall_forall in Hplain. apply Hplain. exact Hp.
Qed.

End HeaderLoop.

(** X18 (add_header.sh, the loop over [$(find . -name "*.csv")] with
    [gsed -i '1s/^/DateTime,Open,High,Low,Close,Volume\n/']).  On a tree
    whose names are distinct in each directory and free of slashes and white
    space, one run of the script is exactly this: every regular file whose
    name ends in [.csv], at any depth, has the header line put before its
    first line, and nothing else changes.  Read back through a path, a file
    that could be read before can be read after, with the edited content if
    the last name of the path ends in [.csv] and with the same content
    otherwise; directories named [*.csv] are listed by [find] and left
    alone. *)
Theorem X18_add_header_edits_exactly_the_csv_files
    (cwd : Scripts.directory) :
  tidy cwd ->
  Scripts.add_header cwd
  = map_csv (Scripts.gsed_1s_start (Scripts.header ++ Scripts.newline)) cwd
  /\ (forall (path : list string) (s : string),
        Scripts.read path cwd = Some s ->
        Scripts.read path (Scripts.add_header cwd)
        = Some (if Scripts.ends_with ".csv" (last path ""%string)
                then Scripts.gsed_1s_start (Scripts.header ++ Scripts.newline) s
                else s))
  /\ (forall path : list string,
        Scripts.read path cwd = None ->
        Scripts.read path (Scripts.add_header cwd) = None).
Proof.
  intros Ht.
  assert (E : Scripts.add_header cwd
              = map_csv (Scripts.gsed_1s_start (Scripts.header ++ Scripts.newline)) cwd).
  { rewrite (add_header_over_paths Ht).
    exact (@edits_of_csv_paths _ (Scripts.Dir cwd) Ht). }
  split; [exact E|]. rewrite E. split.
  - intros path s Hr. rewrite (read_map_csv _ path cwd ""%string), Hr. reflexivity.
  - intros path Hr. rewrite (read_map_csv _ path cwd ""%string), Hr. reflexivity.
Qed.

Lemma X18_witness :
  let cwd := [("2019"%string,
               Scripts.Dir [("CLF9.csv"%string, Scripts.File "a,1"%string);
                            ("notes.txt"%string, Scripts.File "n"%string)]);
              ("old.csv"%string, Scripts.Dir [("CLG9.csv"%string, Scripts.File ""%string)])] in
  tidy cwd
  /\ Scripts.read ["2019"%string; "CLF9.csv"%string] (Scripts.add_header cwd)
     = Some (Scripts.header ++ Scripts.newline ++ "a,1")%string
  /\ Scripts.read ["2019"%string; "notes.txt"%string] (Scripts.add_header cwd)
     = Some "n"%string.
Proof.
  intros cwd.
  assert (Ht : tidy cwd).
  { unfold tidy, cwd. cbn [tidy_node map fst].
    repeat split; try reflexivity;
      repeat (constructor; [cbn [In]; intuition discriminate|]); constructor. }
  split; [exact Ht|].
  destruct (X18_add_header_edits_exactly_the_csv_files Ht) as (_ & Hread & _).
  split.
  - exact (Hread ["2019"%string; "CLF9.csv"%string] "a,1"%string eq_refl).
  - exact (Hread ["2019"%string; "notes.txt"%string] "n"%string eq_refl).
Defined.

(** ** The daily average of the normalized volume *)

Section DailyAverage.

Import SplitByCutoffDate.

Variable O : Type.
Variable sum_other : list O -> O.








End DailyAverage.


